(** * The encryption web API ([src/web/api.py]) as a state-and-exception model

    [EncryptionAPIHandler] is a [BaseHTTPRequestHandler] with three methods,
    [do_OPTIONS], [do_GET] and [do_POST].  Its effects are: bytes written to
    the connection, files opened under the POSIX file system, and one
    [subprocess.run] of the Java back end per transform request.  The handler
    is embedded in a monad over a [world] record that holds exactly these
    things; a Python exception is an outcome that keeps the world reached so
    far (a truncated file stays truncated).

    Python's [str] and [bytes] are both [string] here: sequences of
    characters with code points below 256. *)

From Stdlib Require Import ZArith Lia List String Ascii.
From stdpp Require Import base option list strings gmap pretty.

Open Scope string_scope.
Open Scope Z_scope.

(** ** Python string methods used by the handler *)

Module PyStr.

(** [s.lstrip(c)] for a one-character argument. *)
Fixpoint lstrip (c : ascii) (s : string) : string :=
  match s with
  | String a rest => if Ascii.eqb a c then lstrip c rest else s
  | EmptyString => EmptyString
  end.

(** [s.startswith(p)]. *)
Fixpoint startswith (s p : string) : bool :=
  match p, s with
  | EmptyString, _ => true
  | String _ _, EmptyString => false
  | String b p', String a s' => Ascii.eqb a b && startswith s' p'
  end.

Fixpoint rev_string (s acc : string) : string :=
  match s with
  | EmptyString => acc
  | String a rest => rev_string rest (String a acc)
  end.

(** [s.endswith(p)]. *)
Definition endswith (s p : string) : bool :=
  startswith (rev_string s "") (rev_string p "").

(** [s.split(sep)] for a one-character separator: always at least one
    field, empty fields kept. *)
Fixpoint split (sep : ascii) (s : string) : list string :=
  match s with
  | EmptyString => [""]
  | String a rest =>
      if Ascii.eqb a sep then "" :: split sep rest
      else match split sep rest with
           | f :: fs => String a f :: fs
           | [] => [String a ""]
           end
  end.

(** [sep.join(fields)]. *)
Fixpoint join (sep : string) (fields : list string) : string :=
  match fields with
  | [] => ""
  | [f] => f
  | f :: fs => f +:+ sep +:+ join sep fs
  end.

(** ASCII lower-casing, as header names are compared. *)
Definition lower_char (a : ascii) : ascii :=
  let n := N_of_ascii a in
  if ((65 <=? n) && (n <=? 90))%N then ascii_of_N (n + 32) else a.

Fixpoint lower (s : string) : string :=
  match s with
  | EmptyString => EmptyString
  | String a rest => String (lower_char a) (lower rest)
  end.

Definition CR : ascii := ascii_of_nat 13.
Definition LF : ascii := ascii_of_nat 10.

(** What a text-mode file opened with the default [newline=None] hands
    back on [read()]: every ["\r\n"] and every lone ["\r"] becomes
    ["\n"]. *)
Fixpoint universal_newlines (s : string) : string :=
  match s with
  | EmptyString => EmptyString
  | String a rest =>
      if Ascii.eqb a CR then
        match rest with
        | String b rest' =>
            if Ascii.eqb b LF then String LF (universal_newlines rest')
            else String LF (universal_newlines rest)
        | EmptyString => String LF EmptyString
        end
      else String a (universal_newlines rest)
  end.

(** No carriage return anywhere in [s]. *)
Fixpoint no_cr (s : string) : bool :=
  match s with
  | EmptyString => true
  | String a rest => negb (Ascii.eqb a CR) && no_cr rest
  end.

End PyStr.

(** ** The POSIX file system the handler runs on

    Entries are keyed by their canonical absolute path, given as the list of
    its components; the root directory is the empty list and always exists.
    Symbolic links and permission bits are not modelled. *)

Module Posix.

Inductive entry : Type :=
| File (content : string)
| Dir.

Abbreviation filesystem := (gmap (list string) entry).

Definition is_dir (fs : filesystem) (p : list string) : bool :=
  match p with
  | [] => true
  | _ => match fs !! p with Some Dir => true | _ => false end
  end.

Definition is_file (fs : filesystem) (p : list string) : bool :=
  match fs !! p with Some (File _) => true | _ => false end.

Definition exists_ (fs : filesystem) (p : list string) : bool :=
  match p with
  | [] => true
  | _ => match fs !! p with Some _ => true | None => false end
  end.

(** One step of path lookup: the directory reached so far must be a
    directory before the next component is looked at. *)
Definition step (fs : filesystem) (cur : list string) (c : string)
  : option (list string) :=
  if is_dir fs cur then
    if String.eqb c "" || String.eqb c "." then Some cur
    else if String.eqb c ".." then Some (removelast cur)
    else Some (cur ++ [c])%list
  else None.

Fixpoint walk (fs : filesystem) (cur : list string) (comps : list string)
  : option (list string) :=
  match comps with
  | [] => Some cur
  | c :: rest =>
      match step fs cur c with
      | Some cur' => walk fs cur' rest
      | None => None
      end
  end.

(** Path lookup of the string [p] from the working directory [cwd]:
    the canonical path it names, when every directory on the way exists.
    The entry named last may itself be missing. *)
Definition namei (fs : filesystem) (cwd : list string) (p : string)
  : option (list string) :=
  if String.eqb p "" then None
  else walk fs (if PyStr.startswith p "/" then [] else cwd)
            (PyStr.split "/" p).

(** [os.getcwd()]. *)
Definition getcwd (cwd : list string) : string :=
  "/" +:+ PyStr.join "/" cwd.

(** [os.path.join(a, b)] of [posixpath]. *)
Definition path_join (a b : string) : string :=
  if PyStr.startswith b "/" then b
  else if String.eqb a "" || PyStr.endswith a "/" then a +:+ b
  else a +:+ "/" +:+ b.

(** [os.path.exists(p)] and [os.path.isfile(p)]. *)
Definition path_exists (fs : filesystem) (cwd : list string) (p : string)
  : bool :=
  match namei fs cwd p with
  | Some q => exists_ fs q
  | None => false
  end.

Definition path_isfile (fs : filesystem) (cwd : list string) (p : string)
  : bool :=
  match namei fs cwd p with
  | Some q => is_file fs q
  | None => false
  end.

(** The content of the regular file that [p] names, if it names one. *)
Definition read_file (fs : filesystem) (cwd : list string) (p : string)
  : option string :=
  match namei fs cwd p with
  | Some q =>
      match fs !! q with
      | Some (File content) => Some content
      | _ => None
      end
  | None => None
  end.

(** [q] lies inside (or is) the directory [root]. *)
Definition inside (root q : list string) : bool :=
  bool_decide (root `prefix_of` q).

End Posix.

(** ** Python values that [json.loads] returns, and the two ways the handler
    prints them *)

Module Json.

#[warnings="-register-all"]
Inductive json : Type :=
| JNull                                   (* None *)
| JBool (b : bool)
| JInt (n : Z)
| JFloat (repr : string)                  (* a float, named by its repr *)
| JStr (s : string)
| JArr (items : list json)                (* list *)
| JObj (items : list (string * json)).    (* dict, items in insertion order *)

(** [d.get(k, default)] on the items of a dict. *)
Fixpoint dict_get (items : list (string * json)) (k : string) (default : json)
  : json :=
  match items with
  | [] => default
  | (k', v) :: rest => if String.eqb k' k then v else dict_get rest k default
  end.

Definition hex_digit (n : N) : ascii :=
  if (n <? 10)%N then ascii_of_N (48 + n) else ascii_of_N (87 + n).

(** One character of [json.encoder.py_encode_basestring_ascii]: the
    backslash, the double quote and everything outside [' '..'~'] are
    escaped. *)
Definition escape_char (a : ascii) : string :=
  let n := N_of_ascii a in
  if (n =? 92)%N then "\\"
  else if (n =? 34)%N then String "\" (String (ascii_of_N 34) "")
  else if (n =? 8)%N then "\b"
  else if (n =? 12)%N then "\f"
  else if (n =? 10)%N then "\n"
  else if (n =? 13)%N then "\r"
  else if (n =? 9)%N then "\t"
  else if ((n <? 32) || (126 <? n))%N then
    "\u00" +:+ String (hex_digit (n / 16)) (String (hex_digit (n mod 16)) "")
  else String a "".

Fixpoint escape (s : string) : string :=
  match s with
  | EmptyString => EmptyString
  | String a rest => escape_char a +:+ escape rest
  end.

Definition quote : string := String (ascii_of_N 34) "".

Definition encode_basestring_ascii (s : string) : string :=
  quote +:+ escape s +:+ quote.

(** [json.dumps(d)] for a dict [d] whose keys and values are strings, the
    only shape the handler serialises; default separators. *)
Definition dumps (d : list (string * string)) : string :=
  "{" +:+
  PyStr.join ", "
    (map (fun kv => encode_basestring_ascii (fst kv) +:+ ": " +:+
                    encode_basestring_ascii (snd kv)) d)
  +:+ "}".

End Json.

Import Json.

(** ** Exceptions, the world, and the monad of handler code *)

Inductive exn : Type :=
| TypeError
| ValueError
| AttributeError
| UnicodeDecodeError
| JSONDecodeError
| OSError.            (* OSError and its subclasses, FileNotFoundError etc. *)

Inductive result (A : Type) : Type :=
| Ok (a : A)
| Raise (e : exn).

Arguments Ok {A} a.
Arguments Raise {A} e.

(** What goes to the connection: [send_response] and [send_header] add
    lines to [_headers_buffer]; [end_headers] adds the blank line and
    flushes the buffer to [wfile]; [wfile.write] adds a payload. *)
Inductive line : Type :=
| StatusLine (code : Z)
| HeaderLine (name value : string)
| BlankLine
| Payload (bytes : string).

Record world : Type := World {
  fs : gmap (list string) Posix.entry;
  cwd : list string;
  headers_buffer : list line;
  wfile : list line;
  (** every [open(path, mode)] call so far, oldest first *)
  opened : list (string * string);
  (** every [subprocess.run(cmd)] call so far, oldest first, with the file
      system the child was started on *)
  spawned : list (list string * gmap (list string) Posix.entry)
}.

Definition set_fs (f : gmap (list string) Posix.entry) (w : world) : world :=
  World f (cwd w) (headers_buffer w) (wfile w) (opened w) (spawned w).

Definition set_headers_buffer (b : list line) (w : world) : world :=
  World (fs w) (cwd w) b (wfile w) (opened w) (spawned w).

Definition set_wfile (o : list line) (w : world) : world :=
  World (fs w) (cwd w) (headers_buffer w) o (opened w) (spawned w).

Definition set_opened (l : list (string * string)) (w : world) : world :=
  World (fs w) (cwd w) (headers_buffer w) (wfile w) l (spawned w).

Definition set_spawned (l : list (list string * gmap (list string) Posix.entry))
  (w : world) : world :=
  World (fs w) (cwd w) (headers_buffer w) (wfile w) (opened w) l.

Definition M (A : Type) : Type := world -> result A * world.

Definition ret {A} (a : A) : M A := fun w => (Ok a, w).

Definition raise {A} (e : exn) : M A := fun w => (Raise e, w).

Definition bind {A B} (c : M A) (k : A -> M B) : M B :=
  fun w =>
    match c w with
    | (Ok a, w') => k a w'
    | (Raise e, w') => (Raise e, w')
    end.

Definition lift {A} (r : result A) : M A := fun w => (r, w).

Declare Scope py_scope.
Delimit Scope py_scope with py.
Notation "x <- c ;; k" := (bind c (fun x => k))
  (at level 100, c at next level, right associativity) : py_scope.
Notation "c ;; k" := (bind c (fun _ => k))
  (at level 100, right associativity) : py_scope.
Open Scope py_scope.

Definition get_world : M world := fun w => (Ok w, w).
Definition modify (f : world -> world) : M unit := fun w => (Ok tt, f w).

(** *** [BaseHTTPRequestHandler] output *)

Definition send_header (name value : string) : M unit :=
  modify (fun w => set_headers_buffer (headers_buffer w ++ [HeaderLine name value]) w).

Definition end_headers : M unit :=
  modify (fun w =>
    set_headers_buffer []
      (set_wfile (wfile w ++ headers_buffer w ++ [BlankLine]) w)).

Definition wfile_write (bytes : string) : M unit :=
  modify (fun w => set_wfile (wfile w ++ [Payload bytes]) w).

(** *** Files *)

(** [open(p, 'rb')] / [open(p, 'r')]: the file's bytes, as a binary
    [read()] returns them; what a text-mode [read()] makes of them is
    [read_text] below. *)
Definition open_read (p mode : string) : M string :=
  modify (fun w => set_opened (opened w ++ [(p, mode)]) w) ;;
  w <- get_world ;;
  match Posix.read_file (fs w) (cwd w) p with
  | Some content => ret content
  | None => raise OSError
  end.

(** [open(p, 'w')]: the file is created or truncated at once; the handle is
    the canonical path. *)
Definition open_w (p : string) : M (list string) :=
  modify (fun w => set_opened (opened w ++ [(p, "w")]) w) ;;
  w <- get_world ;;
  match Posix.namei (fs w) (cwd w) p with
  | Some q =>
      if Posix.is_dir (fs w) q then raise OSError
      else modify (set_fs (<[q := Posix.File ""]> (fs w))) ;; ret q
  | None => raise OSError
  end.

(** [f.write(v)] on a text file just opened for writing: only a [str] is
    accepted.  On POSIX nothing is translated on the way out. *)
Definition file_write (f : list string) (v : json) : M unit :=
  match v with
  | JStr s => modify (fun w => set_fs (<[f := Posix.File s]> (fs w)) w)
  | _ => raise TypeError
  end.

(** [data.get(k, default)]: only a dict has the method. *)
Definition py_get (data : json) (k : string) (default : json) : M json :=
  match data with
  | JObj items => ret (dict_get items k default)
  | _ => raise AttributeError
  end.

(** ** Requests and responses *)

(** The methods for which the class defines a [do_] handler; the base
    class answers every other method itself. *)
Inductive method : Type := GET | POST | OPTIONS.

Record request : Type := Request {
  command : method;
  path : string;                       (* the raw request target *)
  headers : list (string * string);
  rfile : string                       (* the bytes the client sends after the headers *)
}.

(** [self.headers[name]]: first header of that name, compared without
    case; [None] when there is none. *)
Fixpoint headers_get (hs : list (string * string)) (name : string)
  : option string :=
  match hs with
  | [] => None
  | (k, v) :: rest =>
      if String.eqb (PyStr.lower k) (PyStr.lower name) then Some v
      else headers_get rest name
  end.

Fixpoint take_bytes (n : N) (s : string) : string :=
  match s with
  | EmptyString => EmptyString
  | String a rest =>
      if (n =? 0)%N then EmptyString else String a (take_bytes (N.pred n) rest)
  end.

(** [self.rfile.read(n)] on a connection whose remaining bytes are [s];
    [rfile] is a [BufferedReader].  At most [n] bytes for [n >= 0];
    everything up to the end of the stream for [n = -1]; a [ValueError] for
    any other negative [n]. *)
Definition rfile_read (s : string) (n : Z) : result string :=
  if n <? -1 then Raise ValueError
  else if n <? 0 then Ok s
  else Ok (take_bytes (Z.to_N n) s).

Record response : Type := Response {
  status : Z;
  response_headers : list (string * string);
  body : string
}.

Fixpoint header_block (ls : list line)
  : option (list (string * string) * list line) :=
  match ls with
  | HeaderLine k v :: rest =>
      match header_block rest with
      | Some (hs, after) => Some ((k, v) :: hs, after)
      | None => None
      end
  | BlankLine :: rest => Some ([], rest)
  | _ => None
  end.

Fixpoint payload (ls : list line) : option string :=
  match ls with
  | [] => Some ""
  | Payload b :: rest =>
      match payload rest with
      | Some s => Some (b +:+ s)
      | None => None
      end
  | _ => None
  end.

(** The response a client reads off the connection, if the bytes sent form
    one: a status line, headers, a blank line, then the body. *)
Definition response_of (wire : list line) : option response :=
  match wire with
  | StatusLine code :: rest =>
      match header_block rest with
      | Some (hs, after) =>
          match payload after with
          | Some b => Some (Response code hs b)
          | None => None
          end
      | None => None
      end
  | _ => None
  end.

(** The response carries a header of that name; names compare without
    case. *)
Definition carries (r : response) (name : string) : bool :=
  match headers_get (response_headers r) name with
  | Some _ => true
  | None => false
  end.

(** ** What the handler takes from the Python runtime

    The standard-library calls whose result depends on more than the
    handler's own text are fields of an interface; every theorem below holds
    for every implementation of it. *)

Class PyLib : Type := {
  (** [self.version_string()] and [self.date_time_string()], the values of
      the [Server] and [Date] headers [send_response] adds *)
  version_string : string;
  date_time_string : string;
  (** [int(s)] on a header value; [ValueError] when it is no integer *)
  py_int : string -> result Z;
  (** [b.decode('utf-8')] *)
  decode_utf8 : string -> result string;
  (** [json.loads(s)] *)
  json_loads : string -> result json;
  (** what a text-mode read makes of a file's bytes: the text they encode
      in the locale's encoding (UTF-8 unless the locale says otherwise), or
      [UnicodeDecodeError] when they encode none *)
  text_decode : string -> result string;
  (** [str(v)] for a float, a list or a dict *)
  py_repr : json -> string
}.

(** [subprocess.run(cmd)] as the handler sees it: the child runs on the file
    system from the working directory and leaves a file system and an exit
    code, or the call raises (no such executable, say). *)
Definition subprocess : Type :=
  list string -> list string -> gmap (list string) Posix.entry ->
  result (gmap (list string) Posix.entry * Z).

(** A connection just accepted: nothing buffered, nothing sent. *)
Definition fresh_connection (w : world) : world :=
  set_headers_buffer [] (set_wfile [] w).

(** ** The handler *)

Section Handler.

Context {lib : PyLib}.
Variable subprocess_run : subprocess.

(** [send_response(code)]: the status line, then [Server] and [Date]. *)
Definition send_response (code : Z) : M unit :=
  modify (fun w => set_headers_buffer (headers_buffer w ++ [StatusLine code]) w) ;;
  send_header "Server" version_string ;;
  send_header "Date" date_time_string.

(** [int(self.headers['Content-Length'])]: [int(None)] is a [TypeError]. *)
Definition int_of_header (v : option string) : M Z :=
  match v with
  | Some s => lift (py_int s)
  | None => raise TypeError
  end.

(** [str(v)]. *)
Definition py_str (v : json) : string :=
  match v with
  | JStr s => s
  | JInt n => pretty n
  | JNull => "None"
  | JBool true => "True"
  | JBool false => "False"
  | _ => py_repr v
  end.

(** [subprocess.run(cmd)]; the [CompletedProcess] it returns, and with it
    the exit code, is dropped by both callers. *)
Definition run_subprocess (cmd : list string) : M unit :=
  w <- get_world ;;
  modify (set_spawned (spawned w ++ [(cmd, fs w)])) ;;
  match subprocess_run cmd (cwd w) (fs w) with
  | Ok (fs', _) => modify (set_fs fs')
  | Raise e => raise e
  end.

(** [f.read()] on a file opened with [open(p, 'r')], given the file's
    bytes: they are decoded, which raises on bytes that are no text, and
    every line end is handed over as a line feed. *)
Definition read_text (bytes : string) : M string :=
  text <- lift (text_decode bytes) ;;
  ret (PyStr.universal_newlines text).

Definition _set_headers (content_type : string) : M unit :=
  send_response 200 ;;
  send_header "Content-type" content_type ;;
  send_header "Access-Control-Allow-Origin" "*" ;;
  send_header "Access-Control-Allow-Methods" "GET, POST, OPTIONS" ;;
  send_header "Access-Control-Allow-Headers" "Content-Type" ;;
  end_headers.

Definition do_OPTIONS : M unit :=
  _set_headers "application/json".

Definition do_GET (req : request) : M unit :=
  if String.eqb (path req) "/api/status" then
    _set_headers "application/json" ;;
    wfile_write (Json.dumps [("status", "running")])
  else
    w <- get_world ;;
    let file_path :=
      Posix.path_join (Posix.getcwd (cwd w)) (PyStr.lstrip "/" (path req)) in
    if Posix.path_exists (fs w) (cwd w) file_path
       && Posix.path_isfile (fs w) (cwd w) file_path
    then
      file <- open_read file_path "rb" ;;
      _set_headers (if PyStr.endswith file_path ".html"
                    then "text/html" else "text/plain") ;;
      wfile_write file
    else
      send_response 404 ;;
      end_headers.

Definition do_POST (req : request) : M unit :=
  if String.eqb (path req) "/api/encrypt" then
    content_length <- int_of_header (headers_get (headers req) "Content-Length") ;;
    post_data <- lift (rfile_read (rfile req) content_length) ;;
    text <- lift (decode_utf8 post_data) ;;
    data <- lift (json_loads text) ;;
    f <- open_w "/tmp/input.txt" ;;
    v <- py_get data "text" (JStr "") ;;
    file_write f v ;;
    k <- py_get data "key" (JInt 3) ;;
    let cmd := ["java"; "-cp"; "../bin"; "WebAppLauncher";
                "/tmp/input.txt"; "/tmp/output.txt";
                py_str k; "1"] in
    run_subprocess cmd ;;
    f <- open_read "/tmp/output.txt" "r" ;;
    result <- read_text f ;;
    _set_headers "application/json" ;;
    wfile_write (Json.dumps [("result", result)])
  else if String.eqb (path req) "/api/decrypt" then
    content_length <- int_of_header (headers_get (headers req) "Content-Length") ;;
    post_data <- lift (rfile_read (rfile req) content_length) ;;
    text <- lift (decode_utf8 post_data) ;;
    data <- lift (json_loads text) ;;
    f <- open_w "/tmp/input.txt" ;;
    v <- py_get data "text" (JStr "") ;;
    file_write f v ;;
    k <- py_get data "key" (JInt 3) ;;
    let cmd := ["java"; "-cp"; "../bin"; "WebAppLauncher";
                "/tmp/input.txt"; "/tmp/output.txt";
                py_str k; "2"] in
    run_subprocess cmd ;;
    f <- open_read "/tmp/output.txt" "r" ;;
    result <- read_text f ;;
    _set_headers "application/json" ;;
    wfile_write (Json.dumps [("result", result)])
  else
    send_response 404 ;;
    end_headers.

(** The base class calls the method named after the request's command, on
    a connection nothing has been written to yet. *)
Definition dispatch (req : request) : M unit :=
  match command req with
  | GET => do_GET req
  | POST => do_POST req
  | OPTIONS => do_OPTIONS
  end.

Definition handle_one_request (req : request) (w : world)
  : result unit * world :=
  dispatch req (fresh_connection w).

(** [run_server] starts an [HTTPServer], which is not threaded:
    [serve_forever] takes one connection at a time, and an exception that
    escapes the handler is reported and dropped.  The result lists the bytes
    each connection got. *)
Fixpoint serve_forever (reqs : list request) (w : world)
  : list (list line) * world :=
  match reqs with
  | [] => ([], w)
  | req :: rest =>
      let (_, w1) := handle_one_request req w in
      let (outs, w2) := serve_forever rest w1 in
      (wfile w1 :: outs, w2)
  end.

(** *** The same handler, said in the words of the specification

    A transform request is: parse the body, then run the back end in the
    given mode on the two scratch files and reply with what it wrote. *)

(** The executable of the back end, and the command line for a key and a
    mode code. *)
Definition worker_exe : list string :=
  ["java"; "-cp"; "../bin"; "WebAppLauncher"].

Definition worker_args (key_text mode : string) : list string :=
  ["/tmp/input.txt"; "/tmp/output.txt"; key_text; mode].

(** The whole command [subprocess.run] is given. *)
Definition argv (key_text mode : string) : list string :=
  (worker_exe ++ worker_args key_text mode)%list.

(** The key a parsed body asks for: the value of ["key"], or 3. *)
Definition key_of (items : list (string * json)) : json :=
  dict_get items "key" (JInt 3).

(** The text a parsed body carries: the value of ["text"], or [""]. *)
Definition text_of (items : list (string * json)) : json :=
  dict_get items "text" (JStr "").

(** The mode code of an endpoint. *)
Definition mode_code (target : string) : string :=
  if String.eqb target "/api/encrypt" then "1" else "2".

(** The parsed body of a request, or the exception that reading and
    parsing it raises. *)
Definition body_json (req : request) : result json :=
  match headers_get (headers req) "Content-Length" with
  | None => Raise TypeError
  | Some s =>
      match py_int s with
      | Raise e => Raise e
      | Ok n =>
          match rfile_read (rfile req) n with
          | Raise e => Raise e
          | Ok post_data =>
              match decode_utf8 post_data with
              | Raise e => Raise e
              | Ok text => json_loads text
              end
          end
      end
  end.

Definition transform (mode : string) (hs : list (string * string))
    (bytes : string) : M unit :=
  content_length <- int_of_header (headers_get hs "Content-Length") ;;
  post_data <- lift (rfile_read bytes content_length) ;;
  text <- lift (decode_utf8 post_data) ;;
  data <- lift (json_loads text) ;;
  f <- open_w "/tmp/input.txt" ;;
  v <- py_get data "text" (JStr "") ;;
  file_write f v ;;
  k <- py_get data "key" (JInt 3) ;;
  run_subprocess (argv (py_str k) mode) ;;
  f <- open_read "/tmp/output.txt" "r" ;;
  result <- read_text f ;;
  _set_headers "application/json" ;;
  wfile_write (Json.dumps [("result", result)]).

(** What a transform request does once its body is parsed. *)
Definition process (mode : string) (data : json) : M unit :=
  f <- open_w "/tmp/input.txt" ;;
  v <- py_get data "text" (JStr "") ;;
  file_write f v ;;
  k <- py_get data "key" (JInt 3) ;;
  run_subprocess (argv (py_str k) mode) ;;
  f <- open_read "/tmp/output.txt" "r" ;;
  result <- read_text f ;;
  _set_headers "application/json" ;;
  wfile_write (Json.dumps [("result", result)]).

End Handler.

(** The two scratch files, by canonical path. *)
Definition input_txt : list string := ["tmp"; "input.txt"].
Definition output_txt : list string := ["tmp"; "output.txt"].

(** The scratch directory is there and [input.txt] can be opened for
    writing in it. *)
Definition scratch_ready (disk : gmap (list string) Posix.entry) : Prop :=
  Posix.is_dir disk ["tmp"] = true /\ Posix.is_dir disk input_txt = false.

(** The world a transform request leaves once its text is in the input
    file and the back end has been started. *)
Definition started (cmd : list string) (t : string) (w : world) : world :=
  let disk := <[input_txt := Posix.File t]> (fs w) in
  World disk (cwd w) (headers_buffer w) (wfile w)
        (opened w ++ [("/tmp/input.txt", "w")])
        (spawned w ++ [(cmd, disk)]).

(** The bytes of a reply sent through [_set_headers], and of the bare 404. *)
Definition wire_200 {lib : PyLib} (content_type payload_bytes : string) : list line :=
  [StatusLine 200;
   HeaderLine "Server" version_string;
   HeaderLine "Date" date_time_string;
   HeaderLine "Content-type" content_type;
   HeaderLine "Access-Control-Allow-Origin" "*";
   HeaderLine "Access-Control-Allow-Methods" "GET, POST, OPTIONS";
   HeaderLine "Access-Control-Allow-Headers" "Content-Type";
   BlankLine;
   Payload payload_bytes].

Definition headers_200 {lib : PyLib} (content_type : string) : list line :=
  [StatusLine 200;
   HeaderLine "Server" version_string;
   HeaderLine "Date" date_time_string;
   HeaderLine "Content-type" content_type;
   HeaderLine "Access-Control-Allow-Origin" "*";
   HeaderLine "Access-Control-Allow-Methods" "GET, POST, OPTIONS";
   HeaderLine "Access-Control-Allow-Headers" "Content-Type";
   BlankLine].

Definition wire_404 {lib : PyLib} : list line :=
  [StatusLine 404;
   HeaderLine "Server" version_string;
   HeaderLine "Date" date_time_string;
   BlankLine].

(** The file a GET for [target] looks for. *)
Definition static_path (w : world) (target : string) : string :=
  Posix.path_join (Posix.getcwd (cwd w)) (PyStr.lstrip "/" target).

Definition static_type (file_path : string) : string :=
  if PyStr.endswith file_path ".html" then "text/html" else "text/plain".

(** The four headers the specification wants on every reply. *)
Definition cors_headers (r : response) : bool :=
  carries r "Content-Type" &&
  bool_decide (headers_get (response_headers r) "Access-Control-Allow-Origin" = Some "*") &&
  carries r "Access-Control-Allow-Methods" &&
  carries r "Access-Control-Allow-Headers".

(** ** A concrete runtime and a concrete back end, for running the handler

    [Demo.lib] implements [PyLib] for ASCII traffic: it agrees with CPython on
    what it accepts, and raises on some input CPython takes (numbers with a
    fraction or an exponent, [\u] escapes, bytes above 127, blanks or
    underscores inside a [Content-Length]).  [Demo.java] is a back end that
    shifts letters, as the specification's example does. *)

Module Demo.

Definition is_digit (a : ascii) : bool :=
  let n := N_of_ascii a in ((48 <=? n) && (n <=? 57))%N.

Fixpoint digits_value (s : string) (acc : Z) : option Z :=
  match s with
  | EmptyString => Some acc
  | String a rest =>
      if is_digit a
      then digits_value rest (10 * acc + Z.of_N (N_of_ascii a) - 48)
      else None
  end.

(** [int(s)] for an optional sign followed by at least one digit. *)
Definition int_of_string (s : string) : option Z :=
  match s with
  | EmptyString => None
  | String a rest =>
      if Ascii.eqb a "-" then
        match rest with
        | EmptyString => None
        | _ => option_map Z.opp (digits_value rest 0)
        end
      else if Ascii.eqb a "+" then
        match rest with
        | EmptyString => None
        | _ => digits_value rest 0
        end
      else digits_value s 0
  end.

Fixpoint all_ascii (s : string) : bool :=
  match s with
  | EmptyString => true
  | String a rest => (N_of_ascii a <? 128)%N && all_ascii rest
  end.

Definition is_ws (a : ascii) : bool :=
  let n := N_of_ascii a in
  ((n =? 32) || (n =? 9) || (n =? 10) || (n =? 13))%N.

Fixpoint skip_ws (s : string) : string :=
  match s with
  | String a rest => if is_ws a then skip_ws rest else s
  | EmptyString => EmptyString
  end.

(** The digits at the front of [s], and what follows them. *)
Fixpoint span_digits (s : string) : string * string :=
  match s with
  | String a rest =>
      if is_digit a
      then let (d, r) := span_digits rest in (String a d, r)
      else (EmptyString, s)
  | EmptyString => (EmptyString, EmptyString)
  end.

(** A JSON integer at the front of [s]. *)
Definition number (s : string) : option (json * string) :=
  let (neg, s1) :=
    match s with
    | String a rest => if Ascii.eqb a "-" then (true, rest) else (false, s)
    | EmptyString => (false, s)
    end in
  let (d, r) := span_digits s1 in
  let more :=
    match r with
    | String a _ => Ascii.eqb a "." || Ascii.eqb a "e" || Ascii.eqb a "E"
    | EmptyString => false
    end in
  match d with
  | EmptyString => None
  | String a d' =>
      if more then None
      else if Ascii.eqb a "0" && negb (String.eqb d' "") then None
      else match digits_value d 0 with
           | Some n => Some (JInt (if neg then - n else n), r)
           | None => None
           end
  end.

(** The rest of a JSON string after its opening quote. *)
Fixpoint string_body (s : string) : option (string * string) :=
  match s with
  | EmptyString => None
  | String a rest =>
      let n := N_of_ascii a in
      if (n =? 34)%N then Some (EmptyString, rest)
      else if (n <? 32)%N then None
      else if (n =? 92)%N then
        match rest with
        | String e rest' =>
            let m := N_of_ascii e in
            let unescaped :=
              if (m =? 34)%N then Some (ascii_of_N 34)
              else if (m =? 92)%N then Some (ascii_of_N 92)
              else if (m =? 47)%N then Some (ascii_of_N 47)
              else if (m =? 98)%N then Some (ascii_of_N 8)
              else if (m =? 102)%N then Some (ascii_of_N 12)
              else if (m =? 110)%N then Some (ascii_of_N 10)
              else if (m =? 114)%N then Some (ascii_of_N 13)
              else if (m =? 116)%N then Some (ascii_of_N 9)
              else None in
            match unescaped, string_body rest' with
            | Some c, Some (str, r) => Some (String c str, r)
            | _, _ => None
            end
        | EmptyString => None
        end
      else
        match string_body rest with
        | Some (str, r) => Some (String a str, r)
        | None => None
        end
  end.

(** [d[k] = v]: a key already there keeps its place. *)
Fixpoint dict_set (items : list (string * json)) (k : string) (v : json)
  : list (string * json) :=
  match items with
  | [] => [(k, v)]
  | (k', v') :: rest =>
      if String.eqb k' k then (k', v) :: rest
      else (k', v') :: dict_set rest k v
  end.

Definition literal (word : string) (v : json) (s : string)
  : option (json * string) :=
  if PyStr.startswith s word
  then Some (v, String.substring (String.length word)
                                 (String.length s - String.length word) s)
  else None.

(** One JSON value at the front of [s] (blanks before it skipped), and
    what follows it.  [fuel] bounds the nesting and the number of items;
    the length of [s] plus one is always enough. *)
Fixpoint value (fuel : nat) (s : string) : option (json * string) :=
  match fuel with
  | O => None
  | S fuel' =>
      match skip_ws s with
      | EmptyString => None
      | String a rest as s' =>
          let n := N_of_ascii a in
          if (n =? 34)%N then
            match string_body rest with
            | Some (str, r) => Some (JStr str, r)
            | None => None
            end
          else if (n =? 91)%N then
            match skip_ws rest with
            | String b r =>
                if (N_of_ascii b =? 93)%N then Some (JArr [], r)
                else elements fuel' rest []
            | EmptyString => None
            end
          else if (n =? 123)%N then
            match skip_ws rest with
            | String b r =>
                if (N_of_ascii b =? 125)%N then Some (JObj [], r)
                else members fuel' rest []
            | EmptyString => None
            end
          else if (n =? 110)%N then literal "null" JNull s'
          else if (n =? 116)%N then literal "true" (JBool true) s'
          else if (n =? 102)%N then literal "false" (JBool false) s'
          else number s'
      end
  end
with elements (fuel : nat) (s : string) (acc : list json)
  : option (json * string) :=
  match fuel with
  | O => None
  | S fuel' =>
      match value fuel' s with
      | Some (v, r) =>
          match skip_ws r with
          | String b r' =>
              if (N_of_ascii b =? 44)%N then elements fuel' r' (acc ++ [v])
              else if (N_of_ascii b =? 93)%N then Some (JArr (acc ++ [v]), r')
              else None
          | EmptyString => None
          end
      | None => None
      end
  end
with members (fuel : nat) (s : string) (acc : list (string * json))
  : option (json * string) :=
  match fuel with
  | O => None
  | S fuel' =>
      match skip_ws s with
      | String q r0 =>
          if (N_of_ascii q =? 34)%N then
            match string_body r0 with
            | Some (k, r1) =>
                match skip_ws r1 with
                | String c r2 =>
                    if (N_of_ascii c =? 58)%N then
                      match value fuel' r2 with
                      | Some (v, r3) =>
                          match skip_ws r3 with
                          | String b r4 =>
                              if (N_of_ascii b =? 44)%N
                              then members fuel' r4 (dict_set acc k v)
                              else if (N_of_ascii b =? 125)%N
                              then Some (JObj (dict_set acc k v), r4)
                              else None
                          | EmptyString => None
                          end
                      | None => None
                      end
                    else None
                | EmptyString => None
                end
            | None => None
            end
          else None
      | EmptyString => None
      end
  end.

Definition loads (s : string) : result json :=
  match value (S (String.length s)) s with
  | Some (v, r) =>
      match skip_ws r with
      | EmptyString => Ok v
      | _ => Raise JSONDecodeError
      end
  | None => Raise JSONDecodeError
  end.

#[export] Instance lib : PyLib := {|
  version_string := "BaseHTTP/0.6 Python/3.11.2";
  date_time_string := "Mon, 02 Nov 2026 10:00:00 GMT";
  py_int := fun s =>
    match int_of_string s with Some n => Ok n | None => Raise ValueError end;
  decode_utf8 := fun b =>
    if all_ascii b then Ok b else Raise UnicodeDecodeError;
  json_loads := loads;
  text_decode := fun b =>
    if all_ascii b then Ok b else Raise UnicodeDecodeError;
  (* no example stringifies a float, a list or a dict *)
  py_repr := fun _ => "..."
|}.

End Demo.

Module Backend.

(** A letter moved [k] places along its alphabet; other characters stay. *)
Definition shift_char (k : Z) (a : ascii) : ascii :=
  let n := Z.of_N (N_of_ascii a) in
  if (65 <=? n) && (n <=? 90)
  then ascii_of_N (Z.to_N (65 + (n - 65 + k) mod 26))
  else if (97 <=? n) && (n <=? 122)
  then ascii_of_N (Z.to_N (97 + (n - 97 + k) mod 26))
  else a.

Fixpoint caesar (k : Z) (s : string) : string :=
  match s with
  | EmptyString => EmptyString
  | String a rest => String (shift_char k a) (caesar k rest)
  end.

(** A back end with the command line of [WebAppLauncher]: it reads the
    input file, shifts by the key (mode 1) or back by it (mode 2), writes
    the output file and exits 0; on a key that is no number, a missing
    input or an unknown mode it writes nothing and exits 1. *)
Definition java : subprocess := fun cmd cwd fs =>
  match cmd with
  | [exe; _; _; _; inp; outp; key; mode] =>
      if negb (String.eqb exe "java") then Raise OSError
      else
        match Demo.int_of_string key,
              Posix.namei fs cwd inp, Posix.namei fs cwd outp with
        | Some k, Some i, Some o =>
            match fs !! i with
            | Some (Posix.File t) =>
                if Posix.is_dir fs o then Ok (fs, 1)
                else if String.eqb mode "1"
                then Ok (<[o := Posix.File (caesar k t)]> fs, 0)
                else if String.eqb mode "2"
                then Ok (<[o := Posix.File (caesar (- k) t)]> fs, 0)
                else Ok (fs, 1)
            | _ => Ok (fs, 1)
            end
        | _, _, _ => Ok (fs, 1)
        end
  | _ => Ok (fs, 1)
  end.

End Backend.

(** A machine to run the examples on: the server started in [/srv/app],
    with a page there, a scratch directory and a file outside the working
    directory. *)
Definition disk0 : gmap (list string) Posix.entry :=
  <[ ["tmp"] := Posix.Dir ]>
  (<[ ["etc"] := Posix.Dir ]>
  (<[ ["etc"; "passwd"] := Posix.File "root:x:0:0" ]>
  (<[ ["srv"] := Posix.Dir ]>
  (<[ ["srv"; "app"] := Posix.Dir ]>
  (<[ ["srv"; "app"; "index.html"] := Posix.File "<html></html>" ]> ∅))))).

Definition world0 : world := World disk0 ["srv"; "app"] [] [] [] [].

(** The body [{"text": t, "key": k}] as a client writes it, for [t] and [k]
    that need no escaping. *)
Definition body_text_key (t k : string) : string :=
  "{" +:+ Json.quote +:+ "text" +:+ Json.quote +:+ ": " +:+
  Json.quote +:+ t +:+ Json.quote +:+ ", " +:+
  Json.quote +:+ "key" +:+ Json.quote +:+ ": " +:+ k +:+ "}".

(** A POST of [b] with its true length declared. *)
Definition post (target b : string) : request :=
  Request POST target
    [("Content-Type", "application/json");
     ("Content-Length", pretty (Z.of_nat (String.length b)))] b.

Definition get (target : string) : request := Request GET target [] "".


(** ** Vocabulary of the claims *)

(** The status reply's body, byte for byte. *)
Definition status_json : string :=
  "{" +:+ Json.quote +:+ "status" +:+ Json.quote +:+ ": " +:+
  Json.quote +:+ "running" +:+ Json.quote +:+ "}".

(** The headers of a reply sent through [_set_headers]. *)
Definition headers_of_200 {lib : PyLib} (content_type : string)
  : list (string * string) :=
  [("Server", version_string);
   ("Date", date_time_string);
   ("Content-type", content_type);
   ("Access-Control-Allow-Origin", "*");
   ("Access-Control-Allow-Methods", "GET, POST, OPTIONS");
   ("Access-Control-Allow-Headers", "Content-Type")].

(** The reply to a transform request that went through. *)
Definition result_reply {lib : PyLib} (result_text : string) : response :=
  Response 200 (headers_of_200 "application/json")
           (Json.dumps [("result", result_text)]).

(** What handling [req] adds to the log of opened paths. *)
Definition paths_opened {lib : PyLib} (run : subprocess) (req : request) (w : world)
  : list string :=
  map fst (drop (length (opened w))
                (opened (snd (handle_one_request run req w)))).

(** The command lines handling [req] starts, oldest first. *)
Definition commands_run {lib : PyLib} (run : subprocess) (req : request) (w : world)
  : list (list string) :=
  map fst (drop (length (spawned w))
                (spawned (snd (handle_one_request run req w)))).

(** The reply to [req], read off the connection. *)
Definition reply {lib : PyLib} (run : subprocess) (req : request) (w : world)
  : option response :=
  response_of (wfile (snd (handle_one_request run req w))).

(** The body has no member of that name. *)
Definition absent (items : list (string * json)) (k : string) : Prop :=
  forall default, dict_get items k default = default.

(** The back end implements the pair of text transforms [enc], [dec] for
    the key text [k]: started in mode 1 (mode 2) where the scratch
    directory exists and the output path is free for a file, it writes
    [enc] ([dec]) of the input file's text to the output file, touches
    nothing else and exits 0. *)
Definition implements (run : subprocess) (k : string)
    (enc dec : string -> string) : Prop :=
  forall (wd : list string) (disk : gmap (list string) Posix.entry) (t : string),
    Posix.is_dir disk ["tmp"] = true ->
    Posix.is_dir disk output_txt = false ->
    disk !! input_txt = Some (Posix.File t) ->
    run (argv k "1") wd disk =
      Ok (<[output_txt := Posix.File (enc t)]> disk, 0) /\
    run (argv k "2") wd disk =
      Ok (<[output_txt := Posix.File (dec t)]> disk, 0).

Definition invertible (enc dec : string -> string) : Prop :=
  forall t, dec (enc t) = t.


(** *** Requests used in the examples *)

Definition hello : request :=
  post "/api/encrypt" (body_text_key "HELLO" "3").

Definition khoor : request :=
  post "/api/decrypt" (body_text_key "KHOOR" "3").

(** [{"text": "WORLD", "key": "abc"}]: the key is a string that is no
    number, which the back end refuses. *)
Definition world_bad_key : request :=
  post "/api/encrypt"
       (body_text_key "WORLD" (Json.quote +:+ "abc" +:+ Json.quote)).


(** [{"key": 3}]: no text. *)
Definition key_only : request :=
  post "/api/encrypt"
       ("{" +:+ Json.quote +:+ "key" +:+ Json.quote +:+ ": 3}").

(** A body cut off in the middle: [{"text": ]. *)
Definition cut_off : request :=
  post "/api/encrypt"
       ("{" +:+ Json.quote +:+ "text" +:+ Json.quote +:+ ": ").



(** [{"text": "A\rB", "key": 3}] and [{"text": "D\nE", "key": 3}], the
    control characters escaped as JSON wants them. *)
Definition encrypt_a_cr_b : request :=
  post "/api/encrypt" (body_text_key "A\rB" "3").



(** ** Further vocabulary, for the properties beyond the claims *)

(** A character between the space and the tilde. *)
Definition printable_char (a : ascii) : bool :=
  let n := N_of_ascii a in ((32 <=? n) && (n <=? 126))%N.

Fixpoint printable (s : string) : bool :=
  match s with
  | EmptyString => true
  | String a rest => printable_char a && printable rest
  end.

(** A POST to one of the two transform endpoints. *)
Definition is_transform (req : request) : Prop :=
  command req = POST /\
  (path req = "/api/encrypt" \/ path req = "/api/decrypt").

(** The exception a parsed body that cannot be used raises: a value that is
    no dict has no [get]; a text that is no [str] cannot be written. *)
Definition unusable (data : json) : option exn :=
  match data with
  | JObj items =>
      match text_of items with
      | JStr _ => None
      | _ => Some TypeError
      end
  | _ => Some AttributeError
  end.






Module Backend2.

(** No executable to start: [subprocess.run] raises. *)
Definition missing : subprocess := fun _ _ _ => Raise OSError.

(** Every byte moved by 128, which a second application undoes. *)
Definition flip_char (a : ascii) : ascii :=
  ascii_of_N ((N_of_ascii a + 128) mod 256).

Fixpoint flip (s : string) : string :=
  match s with
  | EmptyString => EmptyString
  | String a rest => String (flip_char a) (flip rest)
  end.

(** A back end with the same command line that moves every byte by 128,
    in either mode and whatever the key. *)
Definition high : subprocess := fun cmd cwd fs =>
  match cmd with
  | [_; _; _; _; inp; outp; _; _] =>
      match Posix.namei fs cwd inp, Posix.namei fs cwd outp with
      | Some i, Some o =>
          match fs !! i with
          | Some (Posix.File t) =>
              if Posix.is_dir fs o then Ok (fs, 1)
              else Ok (<[o := Posix.File (flip t)]> fs, 0)
          | _ => Ok (fs, 1)
          end
      | _, _ => Ok (fs, 1)
      end
  | _ => Ok (fs, 1)
  end.

End Backend2.

(** A machine without [/tmp]. *)
Definition disk_no_tmp : gmap (list string) Posix.entry :=
  <[ ["srv"] := Posix.Dir ]> (<[ ["srv"; "app"] := Posix.Dir ]> ∅).

Definition world_no_tmp : world := World disk_no_tmp ["srv"; "app"] [] [] [] [].

(** A machine on which [/tmp/output.txt] holds the single byte 255, which
    is no text in UTF-8 (nor in ASCII). *)
Definition disk_bad_output : gmap (list string) Posix.entry :=
  <[output_txt := Posix.File (String (ascii_of_N 255) "")]> disk0.

Definition world_bad_output : world :=
  World disk_bad_output ["srv"; "app"] [] [] [] [].

(** *** More requests for the examples *)

Definition options_any : request := Request OPTIONS "/anything/at/all" [] "".

(** A POST elsewhere, with no [Content-Length] and a body that is no JSON. *)
Definition post_elsewhere : request := Request POST "/api/other" [] "{".

(** [[1, 2]]: JSON, but no object. *)
Definition list_body : request := post "/api/encrypt" "[1, 2]".

(** [{"text": 5}]: the text is a number. *)
Definition number_text : request :=
  post "/api/encrypt"
       ("{" +:+ Json.quote +:+ "text" +:+ Json.quote +:+ ": 5}").

(** [{"key": "3", "extra": true, "text": "HELLO"}]: the members in another
    order, the key as a string, and a member the handler does not know. *)
Definition hello_reordered : request :=
  post "/api/encrypt"
       ("{" +:+ Json.quote +:+ "key" +:+ Json.quote +:+ ": " +:+
        Json.quote +:+ "3" +:+ Json.quote +:+ ", " +:+
        Json.quote +:+ "extra" +:+ Json.quote +:+ ": true, " +:+
        Json.quote +:+ "text" +:+ Json.quote +:+ ": " +:+
        Json.quote +:+ "HELLO" +:+ Json.quote +:+ "}").


Definition status_probe : request := get "/api/status".



(** * Properties *)

Open Scope list_scope.

(** ** Path lookup of the two scratch files *)

Lemma walk_tmp (disk : gmap (list string) Posix.entry) (name : string) :
  name <> "" -> name <> "." -> name <> ".." ->
  Posix.walk disk [] [""; "tmp"; name] =
  if Posix.is_dir disk ["tmp"] then Some ["tmp"; name] else None.
Proof.
  intros H1 H2 H3.
  apply String.eqb_neq in H1, H2, H3.
  unfold Posix.walk, Posix.step.
  change (Posix.is_dir disk []) with true.
  cbn [String.eqb Ascii.eqb Bool.eqb orb app].
  change (Posix.is_dir disk []) with true.
  cbn [String.eqb Ascii.eqb Bool.eqb orb app].
  destruct (Posix.is_dir disk ["tmp"]); [|reflexivity].
  rewrite H1, H2, H3. reflexivity.
Qed.

Lemma namei_input (disk : gmap (list string) Posix.entry) (wd : list string) :
  Posix.namei disk wd "/tmp/input.txt" =
  if Posix.is_dir disk ["tmp"] then Some input_txt else None.
Proof. apply (walk_tmp disk "input.txt"); discriminate. Qed.

Lemma namei_output (disk : gmap (list string) Posix.entry) (wd : list string) :
  Posix.namei disk wd "/tmp/output.txt" =
  if Posix.is_dir disk ["tmp"] then Some output_txt else None.
Proof. apply (walk_tmp disk "output.txt"); discriminate. Qed.

Lemma append_empty_r (s : string) : s +:+ "" = s.
Proof.
  induction s as [|a rest IH]; [reflexivity|].
  change (String a rest +:+ "") with (String a (rest +:+ "")).
  rewrite IH. reflexivity.
Qed.

(** ** Running the handler, one call at a time *)

Ltac fold_world w :=
  fold (fs w) (cwd w) (headers_buffer w) (wfile w) (opened w) (spawned w).

Ltac run_py :=
  cbv beta iota zeta delta
    [bind ret raise lift modify get_world
     send_response send_header end_headers wfile_write _set_headers
     open_read open_w file_write py_get run_subprocess int_of_header
     read_text
     set_fs set_headers_buffer set_wfile set_opened set_spawned
     started fresh_connection
     fs cwd headers_buffer wfile opened spawned fst snd];
  repeat match goal with w : world |- _ => progress fold_world w end.

(* Case analysis on whatever the run is waiting for. *)
Ltac split_stuck run :=
  match goal with
  | |- context [if Posix.is_dir ?d ?p then _ else _] =>
      destruct (Posix.is_dir d p) eqn:?
  | |- context [match Posix.read_file ?d ?c ?p with _ => _ end] =>
      destruct (Posix.read_file d c p) eqn:?
  | |- context [match ?x with JObj _ => _ | _ => _ end] =>
      is_var x; destruct x
  | |- context [match dict_get ?i ?k ?d with _ => _ end] =>
      destruct (dict_get i k d) eqn:?
  | |- context [match run ?a ?b ?c with _ => _ end] =>
      destruct (run a b c) as [[? ?]|?] eqn:?
  | |- context [match text_decode ?b with _ => _ end] =>
      destruct (text_decode b) eqn:?
  end.

Section Facts.

Context {lib : PyLib}.
Variable run : subprocess.

Lemma do_POST_encrypt (req : request) :
  path req = "/api/encrypt" -> do_POST run req = transform run "1" (headers req) (rfile req).
Proof. intros H. unfold do_POST. rewrite H. reflexivity. Qed.

Lemma do_POST_decrypt (req : request) :
  path req = "/api/decrypt" -> do_POST run req = transform run "2" (headers req) (rfile req).
Proof. intros H. unfold do_POST. rewrite H. reflexivity. Qed.

Lemma do_POST_transform (req : request) :
  path req = "/api/encrypt" \/ path req = "/api/decrypt" ->
  do_POST run req = transform run (mode_code (path req)) (headers req) (rfile req).
Proof.
  intros [H | H]; unfold mode_code; rewrite H;
    [apply do_POST_encrypt | apply do_POST_decrypt]; exact H.
Qed.

Lemma do_POST_elsewhere (req : request) (w : world) :
  path req <> "/api/encrypt" -> path req <> "/api/decrypt" ->
  do_POST run req w =
  (Ok tt, set_headers_buffer []
            (set_wfile (wfile w ++ headers_buffer w ++ wire_404) w)).
Proof.
  intros H1 H2. apply String.eqb_neq in H1, H2.
  unfold do_POST. rewrite H1, H2. run_py.
  unfold wire_404. rewrite <- !app_assoc. reflexivity.
Qed.

(** Reading and parsing the body comes first and touches nothing. *)
Lemma transform_body (mode : string) (req : request) (w : world) :
  transform run mode (headers req) (rfile req) w =
  match body_json req with
  | Ok data => process run mode data w
  | Raise e => (Raise e, w)
  end.
Proof.
  unfold body_json, transform, process.
  destruct (headers_get (headers req) "Content-Length") as [s|]; run_py;
    [|reflexivity].
  destruct (py_int s) as [n|e1]; run_py; [|reflexivity].
  destruct (rfile_read (rfile req) n) as [post_data|e0]; run_py;
    [|reflexivity].
  destruct (decode_utf8 post_data) as [text|e2]; run_py; [|reflexivity].
  destruct (json_loads text); reflexivity.
Qed.

(** A parsed body with a string for text, on a machine whose scratch
    directory is ready, step by step. *)
Lemma process_ready (mode : string) (items : list (string * json))
    (t : string) (w : world) :
  text_of items = JStr t ->
  scratch_ready (fs w) ->
  process run mode (JObj items) w =
  let cmd := argv (py_str (key_of items)) mode in
  let w1 := started cmd t w in
  match run cmd (cwd w) (fs w1) with
  | Raise e => (Raise e, w1)
  | Ok (disk, _) =>
      let w2 := set_opened (opened w1 ++ [("/tmp/output.txt", "r")])
                           (set_fs disk w1) in
      match Posix.read_file disk (cwd w) "/tmp/output.txt" with
      | None => (Raise OSError, w2)
      | Some out =>
          match text_decode out with
          | Raise e => (Raise e, w2)
          | Ok text =>
              (Ok tt,
               set_headers_buffer []
                 (set_wfile
                    (wfile w ++ headers_buffer w ++
                     wire_200 "application/json"
                       (Json.dumps
                          [("result", PyStr.universal_newlines text)]))
                    w2))
          end
      end
  end.
Proof.
  unfold process, text_of, key_of, scratch_ready.
  intros Htext [Htmp Hin]. run_py.
  rewrite namei_input, Htmp, Hin. run_py.
  rewrite Htext. run_py.
  rewrite insert_insert_eq.
  destruct (run _ _ _) as [[disk code]|e]; run_py; [|reflexivity].
  destruct (Posix.read_file disk (cwd w) "/tmp/output.txt") as [out|];
    run_py; [|reflexivity].
  destruct (text_decode out); run_py; [|reflexivity].
  unfold wire_200. rewrite <- !app_assoc. reflexivity.
Qed.

(** Whatever the parsed body and the machine: the reply is either nothing
    (an exception left the handler) or the 200 block with a JSON body, and
    the back end is started at most once, on the command line built from
    the body and with the body's text in the input file. *)
Lemma process_shape (mode : string) (data : json) (w : world) :
  headers_buffer w = [] -> wfile w = [] ->
  let o := fst (process run mode data w) in
  let w' := snd (process run mode data w) in
  headers_buffer w' = [] /\
  ((wfile w' = [] /\ o <> Ok tt) \/
   (exists b, wfile w' = wire_200 "application/json" b /\ o = Ok tt)) /\
  (spawned w' = spawned w \/
   exists items t,
     data = JObj items /\ text_of items = JStr t /\
     spawned w' = spawned w ++
       [(argv (py_str (key_of items)) mode,
         <[input_txt := Posix.File t]> (fs w))]) /\
  (opened w' = opened w ++ [("/tmp/input.txt", "w")] \/
   opened w' = opened w ++ [("/tmp/input.txt", "w"); ("/tmp/output.txt", "r")]).
Proof.
  intros Hb Hw. unfold process. run_py. rewrite namei_input.
  repeat (run_py; try split_stuck run);
    rewrite ?Hb, ?Hw; cbn [app];
    (split; [reflexivity|]); (split; [|split]);
    try (left; split; [reflexivity | discriminate]);
    try (right; eexists; split; reflexivity);
    try (left; reflexivity);
    try (right; rewrite <- app_assoc; reflexivity).
  all: right; do 2 eexists; split; [reflexivity|];
    unfold text_of, key_of; split; [eassumption|];
    rewrite insert_insert_eq; reflexivity.
Qed.

End Facts.

(** ** Text-mode reading and the letter shift *)




(** ** The static-file branch and the shape of every reply *)

Lemma exists_and_isfile (disk : gmap (list string) Posix.entry)
    (wd : list string) (p : string) :
  Posix.path_exists disk wd p && Posix.path_isfile disk wd p =
  match Posix.read_file disk wd p with Some _ => true | None => false end.
Proof.
  unfold Posix.path_exists, Posix.path_isfile, Posix.read_file,
    Posix.exists_, Posix.is_file.
  destruct (Posix.namei disk wd p) as [q|]; [|reflexivity].
  destruct (disk !! q) as [[c|]|]; destruct q; reflexivity.
Qed.

Section Replies.

Context {lib : PyLib}.
Variable run : subprocess.

Lemma do_GET_status (req : request) (w : world) :
  path req = "/api/status" ->
  do_GET req w =
  (Ok tt,
   set_headers_buffer []
     (set_wfile (wfile w ++ headers_buffer w ++
                 wire_200 "application/json" (Json.dumps [("status", "running")]))
                w)).
Proof.
  intros H. unfold do_GET. rewrite H, String.eqb_refl. run_py.
  unfold wire_200. rewrite <- !app_assoc. reflexivity.
Qed.

Lemma do_GET_static (req : request) (w : world) :
  path req <> "/api/status" ->
  do_GET req w =
  let file_path := static_path w (path req) in
  match Posix.read_file (fs w) (cwd w) file_path with
  | Some content =>
      (Ok tt,
       set_headers_buffer []
         (set_wfile (wfile w ++ headers_buffer w ++
                     wire_200 (static_type file_path) content)
            (set_opened (opened w ++ [(file_path, "rb")]) w)))
  | None =>
      (Ok tt,
       set_headers_buffer []
         (set_wfile (wfile w ++ headers_buffer w ++ wire_404) w))
  end.
Proof.
  intros H. apply String.eqb_neq in H.
  unfold do_GET, static_path, static_type. rewrite H. run_py.
  rewrite exists_and_isfile.
  destruct (Posix.read_file _ _ _) as [content|] eqn:Hread; run_py.
  - rewrite Hread. run_py.
    unfold wire_200. rewrite <- !app_assoc. reflexivity.
  - unfold wire_404. rewrite <- !app_assoc. reflexivity.
Qed.

Lemma do_OPTIONS_run (w : world) :
  do_OPTIONS w =
  (Ok tt,
   set_headers_buffer []
     (set_wfile (wfile w ++ headers_buffer w ++ headers_200 "application/json") w)).
Proof.
  unfold do_OPTIONS. run_py.
  unfold headers_200. rewrite <- !app_assoc. reflexivity.
Qed.

(** Every connection ends in one of four ways: nothing sent, a 200 block
    with a body, the 200 block alone (OPTIONS), or the bare 404. *)
Lemma handle_wire (req : request) (w : world) :
  let wire := wfile (snd (handle_one_request run req w)) in
  wire = [] \/
  (exists ct b, wire = wire_200 ct b) \/
  wire = headers_200 "application/json" \/
  wire = wire_404.
Proof.
  unfold handle_one_request, dispatch.
  set (w0 := fresh_connection w).
  assert (Hb : headers_buffer w0 = []) by reflexivity.
  assert (Hw : wfile w0 = []) by reflexivity.
  clearbody w0.
  destruct (command req).
  - destruct (String.eqb_spec (path req) "/api/status") as [H|H].
    + rewrite (do_GET_status _ _ H). cbn [snd]. run_py.
      rewrite Hb, Hw. right; left; eauto.
    + rewrite (do_GET_static _ _ H). cbv zeta.
      destruct (Posix.read_file _ _ _); cbn [snd]; run_py; rewrite Hb, Hw.
      * right; left; eauto.
      * right; right; right; reflexivity.
  - destruct (String.eqb_spec (path req) "/api/encrypt") as [He|He];
      [|destruct (String.eqb_spec (path req) "/api/decrypt") as [Hd|Hd]].
    + rewrite (do_POST_encrypt run _ He), transform_body.
      destruct (body_json req) as [data|e]; [|left; exact Hw].
      destruct (process_shape run "1" data w0 Hb Hw) as (_ & [[H _]|[b [H _]]] & _).
      * left; exact H.
      * right; left; eauto.
    + rewrite (do_POST_decrypt run _ Hd), transform_body.
      destruct (body_json req) as [data|e]; [|left; exact Hw].
      destruct (process_shape run "2" data w0 Hb Hw) as (_ & [[H _]|[b [H _]]] & _).
      * left; exact H.
      * right; left; eauto.
    + rewrite (do_POST_elsewhere run _ _ He Hd). cbn [snd]. run_py.
      rewrite Hb, Hw. right; right; right; reflexivity.
  - rewrite do_OPTIONS_run. cbn [snd]. run_py.
    rewrite Hb, Hw. right; right; left; reflexivity.
Qed.

(** Read as a response, a reply has status 200 or 404, never another. *)
Lemma handle_status_code (req : request) (w : world) (r : response) :
  response_of (wfile (snd (handle_one_request run req w))) = Some r ->
  status r = 200 \/ status r = 404.
Proof.
  intros Hr.
  destruct (handle_wire req w) as [H|[(ct & b & H)|[H|H]]];
    rewrite H in Hr; cbn in Hr; try discriminate;
    injection Hr as <-; cbn; auto.
Qed.

End Replies.

(** ** Transform requests from the connection's point of view *)

Section Transform.

Context {lib : PyLib}.
Variable run : subprocess.

Lemma handle_transform (req : request) (w : world) :
  command req = POST ->
  path req = "/api/encrypt" \/ path req = "/api/decrypt" ->
  handle_one_request run req w =
  match body_json req with
  | Ok data => process run (mode_code (path req)) data (fresh_connection w)
  | Raise e => (Raise e, fresh_connection w)
  end.
Proof.
  intros Hc Hp. unfold handle_one_request, dispatch. rewrite Hc.
  rewrite (do_POST_transform run req Hp). apply transform_body.
Qed.

(** A well-formed request on a ready machine: what the handler returns and
    the world it leaves, by what the back end does. *)
Lemma handle_ready (req : request) (items : list (string * json))
    (t : string) (w : world) :
  command req = POST ->
  path req = "/api/encrypt" \/ path req = "/api/decrypt" ->
  body_json req = Ok (JObj items) ->
  text_of items = JStr t ->
  scratch_ready (fs w) ->
  let cmd := argv (py_str (key_of items)) (mode_code (path req)) in
  let disk0 := <[input_txt := Posix.File t]> (fs w) in
  let log := spawned w ++ [(cmd, disk0)] in
  let opened1 := opened w ++ [("/tmp/input.txt", "w")] in
  let opened2 := opened1 ++ [("/tmp/output.txt", "r")] in
  handle_one_request run req w =
  match run cmd (cwd w) disk0 with
  | Raise e => (Raise e, World disk0 (cwd w) [] [] opened1 log)
  | Ok (disk, _) =>
      match Posix.read_file disk (cwd w) "/tmp/output.txt" with
      | None => (Raise OSError, World disk (cwd w) [] [] opened2 log)
      | Some out =>
          match text_decode out with
          | Raise e => (Raise e, World disk (cwd w) [] [] opened2 log)
          | Ok text =>
              (Ok tt,
               World disk (cwd w) []
                 (wire_200 "application/json"
                    (Json.dumps [("result", PyStr.universal_newlines text)]))
                 opened2 log)
          end
      end
  end.
Proof.
  intros Hc Hp Hbody Htext Hready.
  rewrite (handle_transform req w Hc Hp), Hbody.
  rewrite (process_ready run _ items t (fresh_connection w) Htext Hready).
  unfold fresh_connection. run_py.
  destruct (run _ _ _) as [[disk code]|e]; [|reflexivity].
  destruct (Posix.read_file _ _ _) as [out|]; [|reflexivity].
  destruct (text_decode out); reflexivity.
Qed.

Lemma handle_ready_spawned (req : request) (items : list (string * json))
    (t : string) (w : world) :
  command req = POST ->
  path req = "/api/encrypt" \/ path req = "/api/decrypt" ->
  body_json req = Ok (JObj items) ->
  text_of items = JStr t ->
  scratch_ready (fs w) ->
  spawned (snd (handle_one_request run req w)) =
  spawned w ++ [(argv (py_str (key_of items)) (mode_code (path req)),
                 <[input_txt := Posix.File t]> (fs w))].
Proof.
  intros Hc Hp Hbody Htext Hready.
  rewrite (handle_ready req items t w Hc Hp Hbody Htext Hready). cbv zeta.
  destruct (run _ _ _) as [[disk code]|e]; [|reflexivity].
  destruct (Posix.read_file _ _ _) as [out|]; [|reflexivity].
  destruct (text_decode out); reflexivity.
Qed.

(** The two modes on the same parsed body and the same world: either the
    back end is never reached and the two runs are one and the same, or
    both start it, on the same file system, with command lines that differ
    in the mode alone. *)
Lemma process_modes (data : json) (w : world) :
  (process run "1" data w = process run "2" data w /\
   spawned (snd (process run "1" data w)) = spawned w) \/
  (exists key_text disk,
     spawned (snd (process run "1" data w)) =
       spawned w ++ [(argv key_text "1", disk)] /\
     spawned (snd (process run "2" data w)) =
       spawned w ++ [(argv key_text "2", disk)]).
Proof.
  unfold process. run_py. rewrite namei_input.
  destruct (Posix.is_dir (fs w) ["tmp"]); run_py;
    [|left; split; reflexivity].
  destruct (Posix.is_dir (fs w) input_txt); run_py;
    [left; split; reflexivity|].
  destruct data; run_py; try (left; split; reflexivity).
  destruct (dict_get items "text" (JStr "")); run_py;
    try (left; split; reflexivity).
  right. exists (py_str (dict_get items "key" (JInt 3))).
  eexists. split.
  - destruct (run (argv _ "1") _ _) as [[d c]|e]; run_py; [|reflexivity].
    destruct (Posix.read_file d _ _) as [out|]; run_py; [|reflexivity].
    destruct (text_decode out); reflexivity.
  - destruct (run (argv _ "2") _ _) as [[d c]|e]; run_py; [|reflexivity].
    destruct (Posix.read_file d _ _) as [out|]; run_py; [|reflexivity].
    destruct (text_decode out); reflexivity.
Qed.

End Transform.

(** ** The letter-shifting back end does what [implements] asks *)



(** * The claims *)

(** ** C9: the status endpoint *)

(** C9.  For every GET request to [/api/status], whatever its headers,
    whatever the machine and whatever the back end would do, the handler
    returns normally, the reply is 200 with the body [{"status": "running"}],
    and nothing else changes: no file is opened or written and the back end
    is not started. *)
Theorem status_endpoint {lib : PyLib} (run : subprocess)
    (hs : list (string * string)) (bytes : string) (w : world) :
  let req := Request GET "/api/status" hs bytes in
  let w' := snd (handle_one_request run req w) in
  fst (handle_one_request run req w) = Ok tt /\
  reply run req w =
    Some (Response 200 (headers_of_200 "application/json") status_json) /\
  fs w' = fs w /\ cwd w' = cwd w /\
  opened w' = opened w /\ spawned w' = spawned w.
Proof.
  cbv zeta. unfold reply, handle_one_request, dispatch. cbn [command].
  rewrite do_GET_status by reflexivity.
  repeat split; reflexivity.
Qed.

(** ** C6: the command line of the back end *)






(** ** C10: one computation behind the two endpoints *)

(** C10.  For every request body and headers, [do_POST] on [/api/encrypt]
    is [transform] with mode 1 and on [/api/decrypt] is [transform] with
    mode 2: the same reading of the body, the same scratch files, the same
    defaults for text and key, the same launcher and the same reply.  Run
    on the same world, the two either never reach the back end and are then
    the same run, or both start it on the same file system with command
    lines that differ in the last argument alone. *)
Theorem encrypt_decrypt_same_computation {lib : PyLib} (run : subprocess)
    (c : method) (hs : list (string * string)) (bytes : string) :
  let enc := Request c "/api/encrypt" hs bytes in
  let dec := Request c "/api/decrypt" hs bytes in
  do_POST run enc = transform run "1" hs bytes /\
  do_POST run dec = transform run "2" hs bytes /\
  forall w : world,
    (do_POST run enc w = do_POST run dec w /\
     spawned (snd (do_POST run enc w)) = spawned w) \/
    (exists key_text disk,
       spawned (snd (do_POST run enc w)) =
         spawned w ++ [(worker_exe ++ worker_args key_text "1", disk)] /\
       spawned (snd (do_POST run dec w)) =
         spawned w ++ [(worker_exe ++ worker_args key_text "2", disk)]).
Proof.
  cbv zeta. split; [reflexivity|]. split; [reflexivity|].
  intros w.
  change (do_POST run (Request c "/api/encrypt" hs bytes))
    with (transform run "1" (headers (Request c "/api/encrypt" hs bytes))
                            (rfile (Request c "/api/encrypt" hs bytes))).
  change (do_POST run (Request c "/api/decrypt" hs bytes))
    with (transform run "2" (headers (Request c "/api/encrypt" hs bytes))
                            (rfile (Request c "/api/encrypt" hs bytes))).
  rewrite !transform_body.
  destruct (body_json _) as [data|e].
  - apply process_modes.
  - left. split; reflexivity.
Qed.

(** ** C8: the headers of a reply *)

(** C8, as the code has it.  Every reply that [do_OPTIONS], [do_GET] or
    [do_POST] sends has status 200 or 404.  A 200 reply carries [Content-Type],
    [Access-Control-Allow-Origin: *], [Access-Control-Allow-Methods] and
    [Access-Control-Allow-Headers]; a 404 reply carries [Server] and [Date]
    and nothing else. *)
Theorem reply_headers {lib : PyLib} (run : subprocess) (req : request)
    (w : world) (r : response) :
  reply run req w = Some r ->
  (status r = 200 /\ cors_headers r = true) \/
  (status r = 404 /\ map fst (response_headers r) = ["Server"; "Date"]).
Proof.
  unfold reply. intros Hr.
  destruct (handle_wire run req w) as [H|[(ct & b & H)|[H|H]]];
    rewrite H in Hr; cbn in Hr; try discriminate;
    injection Hr as <-.
  - left. split; reflexivity.
  - left. split; reflexivity.
  - right. split; reflexivity.
Qed.

Lemma reply_headers_witness :
  reply (lib := Demo.lib) Backend.java hello world0 =
    Some (result_reply (lib := Demo.lib) "KHOOR") /\
  cors_headers (result_reply (lib := Demo.lib) "KHOOR") = true.
Proof.
  assert (H : reply (lib := Demo.lib) Backend.java hello world0 =
              Some (result_reply (lib := Demo.lib) "KHOOR"))
    by (reflexivity).
  split; [exact H|].
  destruct (reply_headers (lib := Demo.lib) Backend.java hello world0 _ H)
    as [[_ Hc]|[H404 _]].
  - exact Hc.
  - discriminate H404.
Defined.

(** C8 fails as stated: the reply to a GET for a file that is not there is
    a 404 with none of the four headers. *)
Lemma not_found_without_cors :
  exists r,
    reply (lib := Demo.lib) Backend.java (get "/nothing") world0 = Some r /\
    status r = 404 /\
    carries r "Content-Type" = false /\
    carries r "Access-Control-Allow-Origin" = false /\
    carries r "Access-Control-Allow-Methods" = false /\
    carries r "Access-Control-Allow-Headers" = false.
Proof.
  eexists. split; [reflexivity|].
  repeat split; reflexivity.
Qed.

(** ** C2: static files *)

(** C2, as the code has it.  For every GET request whose path is not
    [/api/status], the handler strips the leading slashes, joins the rest to
    the working directory and looks the result up as it stands, [..]
    components included: when it names a regular file the reply is 200 with
    the file's bytes, wherever the file is; otherwise the reply is the bare
    404.  No reply of the handler has status 403. *)
Theorem static_files_unconfined {lib : PyLib} (run : subprocess)
    (req : request) (w : world) :
  command req = GET ->
  path req <> "/api/status" ->
  let file_path := static_path w (path req) in
  reply run req w =
    match Posix.read_file (fs w) (cwd w) file_path with
    | Some content =>
        Some (Response 200 (headers_of_200 (static_type file_path)) content)
    | None =>
        Some (Response 404 [("Server", version_string);
                            ("Date", date_time_string)] "")
    end /\
  forall r, reply run req w = Some r -> status r <> 403.
Proof.
  intros Hc Hp. cbv zeta. split.
  - unfold reply, handle_one_request, dispatch. rewrite Hc.
    rewrite (do_GET_static req _ Hp). cbv zeta.
    change (fs (fresh_connection w)) with (fs w).
    change (cwd (fresh_connection w)) with (cwd w).
    change (static_path (fresh_connection w) (path req))
      with (static_path w (path req)).
    destruct (Posix.read_file _ _ _) as [content|]; cbn.
    + rewrite append_empty_r. reflexivity.
    + reflexivity.
  - intros r Hr. destruct (handle_status_code run req w r Hr) as [H|H];
      rewrite H; discriminate.
Qed.

Lemma static_files_unconfined_witness :
  command (get "/index.html") = GET /\
  path (get "/index.html") <> "/api/status" /\
  reply (lib := Demo.lib) Backend.java (get "/index.html") world0 =
    Some (Response 200 (headers_of_200 (lib := Demo.lib) "text/html")
                   "<html></html>").
Proof.
  split; [reflexivity|]. split; [discriminate|].
  destruct (static_files_unconfined (lib := Demo.lib) Backend.java
              (get "/index.html") world0 eq_refl) as [H _];
    [discriminate|].
  rewrite H. reflexivity.
Defined.

(** C2 fails as stated: a path that climbs out of the working directory
    [/srv/app] with [../] is looked up where it leads, and the file found
    there is served with status 200. *)
Lemma traversal_is_served :
  Posix.namei disk0 ["srv"; "app"]
    (static_path world0 "/../../etc/passwd") = Some ["etc"; "passwd"] /\
  Posix.inside ["srv"; "app"] ["etc"; "passwd"] = false /\
  reply (lib := Demo.lib) Backend.java (get "/../../etc/passwd") world0 =
    Some (Response 200 (headers_of_200 (lib := Demo.lib) "text/plain")
                   "root:x:0:0").
Proof. repeat split; reflexivity. Qed.

(** ** C3: bodies that do not parse, bodies with members missing *)

(** C3, as the code has it.  For every POST to [/api/encrypt] or
    [/api/decrypt]: when reading or parsing the body raises, the exception
    leaves the handler at once, so that no reply is sent, no file is opened
    and the back end is not started; when the body is an object without a
    text, the text is taken to be empty, the back end is started on an empty
    input file, and the request goes on as any other.  No reply of the
    handler has status 400. *)
Theorem bad_body {lib : PyLib} (run : subprocess) (req : request) (w : world) :
  command req = POST ->
  path req = "/api/encrypt" \/ path req = "/api/decrypt" ->
  (forall e, body_json req = Raise e ->
     handle_one_request run req w = (Raise e, fresh_connection w) /\
     reply run req w = None /\
     commands_run run req w = []) /\
  (forall items, body_json req = Ok (JObj items) -> absent items "text" ->
     scratch_ready (fs w) ->
     spawned (snd (handle_one_request run req w)) =
       spawned w ++ [(argv (py_str (key_of items)) (mode_code (path req)),
                      <[input_txt := Posix.File ""]> (fs w))]) /\
  (forall r, reply run req w = Some r -> status r <> 400).
Proof.
  intros Hc Hp. split; [|split].
  - intros e He. unfold reply, commands_run.
    rewrite (handle_transform run req w Hc Hp), He. cbn [snd].
    change (spawned (fresh_connection w)) with (spawned w).
    rewrite drop_all. repeat split; reflexivity.
  - intros items Hbody Habsent Hready.
    apply (handle_ready_spawned run req items "" w Hc Hp Hbody); [|exact Hready].
    unfold text_of. apply Habsent.
  - intros r Hr. destruct (handle_status_code run req w r Hr) as [H|H];
      rewrite H; discriminate.
Qed.

(* A body cut off in the middle, and a body without a text. *)
Lemma bad_body_witness :
  body_json (lib := Demo.lib) cut_off = Raise JSONDecodeError /\
  reply (lib := Demo.lib) Backend.java cut_off world0 = None /\
  commands_run (lib := Demo.lib) Backend.java cut_off world0 = [] /\
  body_json (lib := Demo.lib) key_only = Ok (JObj [("key", JInt 3)]) /\
  spawned (snd (handle_one_request (lib := Demo.lib) Backend.java key_only
                  world0)) =
    [(argv "3" "1", <[input_txt := Posix.File ""]> disk0)].
Proof.
  assert (H : body_json (lib := Demo.lib) cut_off = Raise JSONDecodeError)
    by reflexivity.
  assert (K : body_json (lib := Demo.lib) key_only = Ok (JObj [("key", JInt 3)]))
    by reflexivity.
  destruct (bad_body (lib := Demo.lib) Backend.java cut_off world0
              eq_refl (or_introl eq_refl)) as (Hraise & _ & _).
  destruct (Hraise _ H) as (_ & Hreply & Hrun).
  destruct (bad_body (lib := Demo.lib) Backend.java key_only world0
              eq_refl (or_introl eq_refl)) as (_ & Habsent & _).
  split; [exact H|]. split; [exact Hreply|]. split; [exact Hrun|].
  split; [exact K|].
  apply (Habsent [("key", JInt 3)] K).
  - intros d. reflexivity.
  - split; reflexivity.
Defined.

(** C3 fails as stated: a body cut off in the middle gets no reply at all,
    not a 400; a body without a text gets a 200 and the back end is
    started. *)
Lemma malformed_gets_no_400 :
  body_json (lib := Demo.lib) cut_off = Raise JSONDecodeError /\
  handle_one_request (lib := Demo.lib) Backend.java cut_off world0 =
    (Raise JSONDecodeError, world0) /\
  reply (lib := Demo.lib) Backend.java cut_off world0 = None /\
  body_json (lib := Demo.lib) key_only = Ok (JObj [("key", JInt 3)]) /\
  reply (lib := Demo.lib) Backend.java key_only world0 =
    Some (result_reply (lib := Demo.lib) "") /\
  commands_run (lib := Demo.lib) Backend.java key_only world0 =
    [["java"; "-cp"; "../bin"; "WebAppLauncher";
      "/tmp/input.txt"; "/tmp/output.txt"; "3"; "1"]].
Proof. repeat split; reflexivity. Qed.

(** ** C4: a back end that fails *)

(** C4, as the code has it.  For every well-formed transform request on a
    ready machine whose back end returns with any exit code, zero or not:
    the exit code is ignored.  The handler removes no file, so the file
    system stays as the back end left it.  When [/tmp/output.txt] can be
    opened there and its bytes decode as text, the reply is 200 with that
    text as the result; when it cannot be opened the handler raises
    [OSError], when its bytes are no text it raises the decoding error, and
    in both cases no reply is sent.  No reply of the handler has status
    500. *)
Theorem exit_code_ignored {lib : PyLib} (run : subprocess) (req : request)
    (items : list (string * json)) (t : string) (w : world)
    (disk : gmap (list string) Posix.entry) (code : Z) :
  command req = POST ->
  path req = "/api/encrypt" \/ path req = "/api/decrypt" ->
  body_json req = Ok (JObj items) ->
  text_of items = JStr t ->
  scratch_ready (fs w) ->
  run (argv (py_str (key_of items)) (mode_code (path req))) (cwd w)
      (<[input_txt := Posix.File t]> (fs w)) = Ok (disk, code) ->
  let w' := snd (handle_one_request run req w) in
  fs w' = disk /\
  match Posix.read_file disk (cwd w) "/tmp/output.txt" with
  | Some out =>
      match text_decode out with
      | Ok text =>
          fst (handle_one_request run req w) = Ok tt /\
          reply run req w =
            Some (result_reply (PyStr.universal_newlines text))
      | Raise e =>
          fst (handle_one_request run req w) = Raise e /\
          reply run req w = None
      end
  | None =>
      fst (handle_one_request run req w) = Raise OSError /\
      reply run req w = None
  end /\
  forall r, reply run req w = Some r -> status r <> 500.
Proof.
  intros Hc Hp Hbody Htext Hready Hrun. cbv zeta.
  unfold reply.
  pose proof (handle_ready run req items t w Hc Hp Hbody Htext Hready) as H.
  cbv zeta in H. rewrite Hrun in H.
  split; [|split].
  - rewrite H. destruct (Posix.read_file _ _ _) as [out|]; [|reflexivity].
    destruct (text_decode out); reflexivity.
  - rewrite H. destruct (Posix.read_file _ _ _) as [out|]; cbn.
    + destruct (text_decode out); cbn.
      * rewrite append_empty_r. split; reflexivity.
      * split; reflexivity.
    + split; reflexivity.
  - intros r Hr. destruct (handle_status_code run req w r Hr) as [E|E];
      rewrite E; discriminate.
Qed.

(* The back end refuses the key and exits 1 without writing: on a fresh
   machine there is no output file; on a machine whose output file holds a
   byte that is no text, the read raises. *)
Lemma exit_code_ignored_witness :
  Backend.java (argv "abc" "1") ["srv"; "app"]
    (<[input_txt := Posix.File "WORLD"]> disk0) =
    Ok (<[input_txt := Posix.File "WORLD"]> disk0, 1) /\
  fs (snd (handle_one_request (lib := Demo.lib) Backend.java world_bad_key
             world0)) = <[input_txt := Posix.File "WORLD"]> disk0 /\
  fst (handle_one_request (lib := Demo.lib) Backend.java world_bad_key
         world_bad_output) = Raise UnicodeDecodeError /\
  reply (lib := Demo.lib) Backend.java world_bad_key world_bad_output = None.
Proof.
  assert (Hrun : Backend.java (argv "abc" "1") ["srv"; "app"]
                   (<[input_txt := Posix.File "WORLD"]> disk0) =
                 Ok (<[input_txt := Posix.File "WORLD"]> disk0, 1))
    by reflexivity.
  split; [exact Hrun|]. split.
  - refine (proj1 (exit_code_ignored (lib := Demo.lib) Backend.java
                     world_bad_key
                     [("text", JStr "WORLD"); ("key", JStr "abc")] "WORLD"
                     world0 _ 1 eq_refl (or_introl eq_refl) _ eq_refl _ Hrun)).
    + reflexivity.
    + split; reflexivity.
  - exact (proj1 (proj2 (exit_code_ignored (lib := Demo.lib) Backend.java
                     world_bad_key
                     [("text", JStr "WORLD"); ("key", JStr "abc")] "WORLD"
                     world_bad_output
                     (<[input_txt := Posix.File "WORLD"]> disk_bad_output) 1
                     eq_refl (or_introl eq_refl) eq_refl eq_refl
                     (conj eq_refl eq_refl) eq_refl))).
Defined.

(** C4 fails as stated.  The back end refuses the key ["abc"] and exits
    with code 1 without writing.  On a fresh machine the handler then
    raises, sends no reply, and leaves [/tmp/input.txt] behind; after an
    earlier request it answers 200 with that request's output. *)
Lemma failed_worker_no_500 :
  Backend.java (argv "abc" "1") ["srv"; "app"]
    (<[input_txt := Posix.File "WORLD"]> disk0) =
    Ok (<[input_txt := Posix.File "WORLD"]> disk0, 1) /\
  fst (handle_one_request (lib := Demo.lib) Backend.java world_bad_key world0)
    = Raise OSError /\
  reply (lib := Demo.lib) Backend.java world_bad_key world0 = None /\
  fs (snd (handle_one_request (lib := Demo.lib) Backend.java world_bad_key
             world0)) !! input_txt = Some (Posix.File "WORLD") /\
  reply (lib := Demo.lib) Backend.java world_bad_key
    (snd (handle_one_request (lib := Demo.lib) Backend.java hello world0)) =
    Some (result_reply (lib := Demo.lib) "KHOOR").
Proof. repeat split; reflexivity. Qed.

(** ** C5: the size of the body *)




(** ** The scratch directory under writes to the two files *)




(** ** C1: the scratch files of a request *)

(** C1, as the code has it.  Every POST to [/api/encrypt] or
    [/api/decrypt] opens no path other than the two fixed ones,
    [/tmp/input.txt] and then [/tmp/output.txt], the same for every request;
    and if it starts the back end, it names these two paths on the command
    line and has put the request's own text in [/tmp/input.txt] by then. *)
Theorem scratch_paths_fixed {lib : PyLib} (run : subprocess) (req : request)
    (w : world) :
  command req = POST ->
  path req = "/api/encrypt" \/ path req = "/api/decrypt" ->
  let w' := snd (handle_one_request run req w) in
  (paths_opened run req w = [] \/
   paths_opened run req w = ["/tmp/input.txt"] \/
   paths_opened run req w = ["/tmp/input.txt"; "/tmp/output.txt"]) /\
  (spawned w' = spawned w \/
   exists items t key_text mode disk,
     body_json req = Ok (JObj items) /\
     text_of items = JStr t /\
     spawned w' = spawned w ++
       [(["java"; "-cp"; "../bin"; "WebAppLauncher";
          "/tmp/input.txt"; "/tmp/output.txt"; key_text; mode], disk)] /\
     disk !! input_txt = Some (Posix.File t)).
Proof.
  intros Hc Hp. cbv zeta. unfold paths_opened.
  rewrite (handle_transform run req w Hc Hp).
  destruct (body_json req) as [data|e].
  - destruct (process_shape run (mode_code (path req)) data
                (fresh_connection w) eq_refl eq_refl)
      as (_ & _ & Hs & Ho).
    change (opened (fresh_connection w)) with (opened w) in Ho.
    change (spawned (fresh_connection w)) with (spawned w) in Hs.
    change (fs (fresh_connection w)) with (fs w) in Hs.
    split.
    + destruct Ho as [-> | ->]; rewrite drop_app_length; auto.
    + destruct Hs as [H|(items & t & -> & Ht & H)]; [left; exact H|].
      right. exists items, t. do 3 eexists.
      split; [reflexivity|]. split; [exact Ht|].
      split; [exact H|]. apply lookup_insert_eq.
  - cbn [snd]. change (opened (fresh_connection w)) with (opened w).
    rewrite drop_all. split; left; reflexivity.
Qed.

Lemma scratch_paths_fixed_witness :
  command hello = POST /\ path hello = "/api/encrypt" /\
  (paths_opened (lib := Demo.lib) Backend.java hello world0 = [] \/
   paths_opened (lib := Demo.lib) Backend.java hello world0 =
     ["/tmp/input.txt"] \/
   paths_opened (lib := Demo.lib) Backend.java hello world0 =
     ["/tmp/input.txt"; "/tmp/output.txt"]).
Proof.
  split; [reflexivity|]. split; [reflexivity|].
  exact (proj1 (scratch_paths_fixed (lib := Demo.lib) Backend.java hello
                  world0 eq_refl (or_introl eq_refl))).
Defined.

(** C1 fails as stated.  Two requests with different texts, served one
    after the other, open the very same two paths; and the second, whose
    back end exits without writing, is answered with the first one's
    result. *)
Lemma sessions_share_scratch_files :
  let w1 := snd (handle_one_request (lib := Demo.lib) Backend.java hello
                   world0) in
  body_json (lib := Demo.lib) hello =
    Ok (JObj [("text", JStr "HELLO"); ("key", JInt 3)]) /\
  body_json (lib := Demo.lib) world_bad_key =
    Ok (JObj [("text", JStr "WORLD"); ("key", JStr "abc")]) /\
  paths_opened (lib := Demo.lib) Backend.java hello world0 =
    ["/tmp/input.txt"; "/tmp/output.txt"] /\
  paths_opened (lib := Demo.lib) Backend.java world_bad_key w1 =
    ["/tmp/input.txt"; "/tmp/output.txt"] /\
  reply (lib := Demo.lib) Backend.java hello world0 =
    Some (result_reply (lib := Demo.lib) "KHOOR") /\
  reply (lib := Demo.lib) Backend.java world_bad_key w1 =
    Some (result_reply (lib := Demo.lib) "KHOOR") /\
  fst (serve_forever (lib := Demo.lib) Backend.java [hello; world_bad_key] world0) =
    [wire_200 (lib := Demo.lib) "application/json"
       (Json.dumps [("result", "KHOOR")]);
     wire_200 (lib := Demo.lib) "application/json"
       (Json.dumps [("result", "KHOOR")])].
Proof. cbv zeta. repeat split; reflexivity. Qed.

(** ** C7: encrypt, then decrypt *)




Lemma high_implements_flip (k : string) :
  implements Backend2.high k Backend2.flip Backend2.flip.
Proof.
  intros wd disk t Htmp Hout Hin.
  unfold Backend2.high, argv, worker_exe, worker_args.
  cbn [app].
  rewrite namei_input, namei_output, Htmp, Hin, Hout.
  split; reflexivity.
Qed.

Lemma flip_invertible : invertible Backend2.flip Backend2.flip.
Proof.
  intros t. induction t as [|a rest IH]; [reflexivity|].
  cbn [Backend2.flip]. rewrite IH. f_equal.
  destruct a as [[] [] [] [] [] [] [] []]; reflexivity.
Qed.

(** C7 fails as stated in a second way.  A back end that moves every byte by
    128 is invertible, yet nothing encrypted with it comes back: the bytes
    it writes for [HELLO] are no text, the text-mode read of the output file
    raises, and the encrypt request gets no reply at all. *)
Lemma undecodable_output_is_lost :
  implements Backend2.high "3" Backend2.flip Backend2.flip /\
  invertible Backend2.flip Backend2.flip /\
  text_decode (PyLib := Demo.lib) (Backend2.flip "HELLO") =
    Raise UnicodeDecodeError /\
  fst (handle_one_request (lib := Demo.lib) Backend2.high hello world0) =
    Raise UnicodeDecodeError /\
  reply (lib := Demo.lib) Backend2.high hello world0 = None.
Proof.
  split; [exact (high_implements_flip "3")|].
  split; [exact flip_invertible|].
  repeat split; reflexivity.
Qed.

(** * Beyond the claims *)

(** ** Requests that are no transform request *)

Section Quiet.

Context {lib : PyLib}.
Variable run : subprocess.

(** What handling a request that is no transform request comes to: a reply,
    and at most one more path in the log of opened files. *)
Lemma handle_quiet (req : request) (w : world) :
  ~ is_transform req ->
  exists wire log,
    handle_one_request run req w =
      (Ok tt, World (fs w) (cwd w) [] wire log (spawned w)) /\
    wire <> [] /\
    (log = opened w \/
     log = opened w ++ [(static_path w (path req), "rb")]).
Proof.
  intros Hn. unfold handle_one_request, dispatch.
  destruct (command req) eqn:Hc.
  - destruct (String.eqb_spec (path req) "/api/status") as [H|H].
    + rewrite (do_GET_status _ _ H). run_py.
      do 2 eexists. split; [reflexivity|]. split; [discriminate|]. auto.
    + rewrite (do_GET_static _ _ H). cbv zeta.
      change (fs (fresh_connection w)) with (fs w).
      change (cwd (fresh_connection w)) with (cwd w).
      change (static_path (fresh_connection w) (path req))
        with (static_path w (path req)).
      destruct (Posix.read_file _ _ _); run_py;
        do 2 eexists; (split; [reflexivity|]); (split; [discriminate|]); auto.
  - destruct (String.eqb_spec (path req) "/api/encrypt") as [He|He];
      [exfalso; apply Hn; split; auto|].
    destruct (String.eqb_spec (path req) "/api/decrypt") as [Hd|Hd];
      [exfalso; apply Hn; split; auto|].
    rewrite (do_POST_elsewhere run _ _ He Hd). run_py.
    do 2 eexists. split; [reflexivity|]. split; [discriminate|]. auto.
  - rewrite do_OPTIONS_run. run_py.
    do 2 eexists. split; [reflexivity|]. split; [discriminate|]. auto.
Qed.

End Quiet.

(** X1.  An OPTIONS request, whatever its path, headers and body, is
    answered 200 with the headers of [_set_headers] and no body; the handler
    returns normally, opens no file and does not start the back end. *)
Theorem options_reply {lib : PyLib} (run : subprocess) (req : request)
    (w : world) :
  command req = OPTIONS ->
  let w' := snd (handle_one_request run req w) in
  fst (handle_one_request run req w) = Ok tt /\
  reply run req w =
    Some (Response 200 (headers_of_200 "application/json") "") /\
  fs w' = fs w /\ opened w' = opened w /\ spawned w' = spawned w.
Proof.
  intros Hc. cbv zeta. unfold reply, handle_one_request, dispatch.
  rewrite Hc, do_OPTIONS_run. repeat split; reflexivity.
Qed.

Lemma options_reply_witness :
  reply (lib := Demo.lib) Backend.java options_any world0 =
    Some (Response 200 (headers_of_200 (lib := Demo.lib) "application/json") "").
Proof.
  exact (proj1 (proj2 (options_reply (lib := Demo.lib) Backend.java
                         options_any world0 eq_refl))).
Defined.

(** X2.  A POST to any path other than [/api/encrypt] and [/api/decrypt]
    is answered with the bare 404 without the body being read: whatever the
    [Content-Length] header holds, or if there is none, and whatever the
    body, the handler returns normally, opens no file and does not start the
    back end. *)
Theorem post_elsewhere_not_found {lib : PyLib} (run : subprocess)
    (req : request) (w : world) :
  command req = POST ->
  path req <> "/api/encrypt" -> path req <> "/api/decrypt" ->
  let w' := snd (handle_one_request run req w) in
  fst (handle_one_request run req w) = Ok tt /\
  reply run req w =
    Some (Response 404 [("Server", version_string);
                        ("Date", date_time_string)] "") /\
  fs w' = fs w /\ opened w' = opened w /\ spawned w' = spawned w.
Proof.
  intros Hc He Hd. cbv zeta. unfold reply, handle_one_request, dispatch.
  rewrite Hc, (do_POST_elsewhere run _ _ He Hd). repeat split; reflexivity.
Qed.

Lemma post_elsewhere_not_found_witness :
  headers_get (headers post_elsewhere) "Content-Length" = None /\
  reply (lib := Demo.lib) Backend.java post_elsewhere world0 =
    Some (Response 404 [("Server", version_string (PyLib := Demo.lib));
                        ("Date", date_time_string (PyLib := Demo.lib))] "").
Proof.
  split; [reflexivity|].
  refine (proj1 (proj2 (post_elsewhere_not_found (lib := Demo.lib)
                          Backend.java post_elsewhere world0 eq_refl _ _)));
    discriminate.
Defined.

(** X3.  Only a POST to [/api/encrypt] or [/api/decrypt] can write to the
    file system or start the back end: handling any other request leaves the
    file system, the working directory and the list of processes started as
    they were, and opens at most one file, the static file a GET names, for
    reading. *)
Theorem effects_only_from_transform {lib : PyLib} (run : subprocess)
    (req : request) (w : world) :
  ~ is_transform req ->
  let w' := snd (handle_one_request run req w) in
  fs w' = fs w /\ cwd w' = cwd w /\ spawned w' = spawned w /\
  (opened w' = opened w \/
   (command req = GET /\
    opened w' = opened w ++ [(static_path w (path req), "rb")])).
Proof.
  intros Hn. cbv zeta.
  destruct (handle_quiet run req w Hn) as (wire & log & H & _ & Hlog).
  rewrite H. cbn [snd fs cwd spawned opened].
  split; [reflexivity|]. split; [reflexivity|]. split; [reflexivity|].
  destruct Hlog as [->| ->]; [left; reflexivity|].
  destruct (command req) eqn:Hc.
  - right. split; reflexivity.
  - left. unfold handle_one_request, dispatch in H. rewrite Hc in H.
    destruct (String.eqb_spec (path req) "/api/encrypt") as [He|He];
      [exfalso; apply Hn; split; auto|].
    destruct (String.eqb_spec (path req) "/api/decrypt") as [Hd|Hd];
      [exfalso; apply Hn; split; auto|].
    rewrite (do_POST_elsewhere run _ _ He Hd) in H.
    injection H as _ H. exact (eq_sym H).
  - left. unfold handle_one_request, dispatch in H. rewrite Hc in H.
    rewrite do_OPTIONS_run in H. injection H as _ H. exact (eq_sym H).
Qed.

Lemma effects_only_from_transform_witness :
  ~ is_transform (get "/../../etc/passwd") /\
  fs (snd (handle_one_request (lib := Demo.lib) Backend.java
             (get "/../../etc/passwd") world0)) = disk0 /\
  spawned (snd (handle_one_request (lib := Demo.lib) Backend.java
                  (get "/../../etc/passwd") world0)) = [].
Proof.
  assert (Hn : ~ is_transform (get "/../../etc/passwd"))
    by (intros [H _]; discriminate H).
  split; [exact Hn|].
  destruct (effects_only_from_transform (lib := Demo.lib) Backend.java
              (get "/../../etc/passwd") world0 Hn) as (Hfs & _ & Hsp & _).
  split; [exact Hfs | exact Hsp].
Defined.

(** ** Transform requests that do not get through *)

Section Failures.

Context {lib : PyLib}.
Variable run : subprocess.

Lemma process_unusable (mode : string) (data : json) (e : exn) (w : world) :
  unusable data = Some e ->
  scratch_ready (fs w) ->
  process run mode data w =
  (Raise e,
   World (<[input_txt := Posix.File ""]> (fs w)) (cwd w)
         (headers_buffer w) (wfile w)
         (opened w ++ [("/tmp/input.txt", "w")]) (spawned w)).
Proof.
  unfold unusable, text_of, process. intros Hu [Htmp Hin]. run_py.
  rewrite namei_input, Htmp, Hin. run_py.
  destruct data; run_py; try (injection Hu as <-; reflexivity).
  destruct (dict_get items "text" (JStr "")); run_py;
    try (injection Hu as <-; reflexivity).
  discriminate Hu.
Qed.

Lemma process_not_ready (mode : string) (data : json) (w : world) :
  Posix.is_dir (fs w) ["tmp"] = false \/ Posix.is_dir (fs w) input_txt = true ->
  process run mode data w =
  (Raise OSError, set_opened (opened w ++ [("/tmp/input.txt", "w")]) w).
Proof.
  unfold process. intros Hn. run_py. rewrite namei_input.
  destruct (Posix.is_dir (fs w) ["tmp"]) eqn:Htmp; run_py.
  - destruct Hn as [Hn|Hn]; [discriminate|]. rewrite Hn. run_py.
    destruct w; reflexivity.
  - destruct w; reflexivity.
Qed.

(** The handler sees a parsed body through its text and the [str] of its
    key alone. *)
Lemma process_text_key (mode : string) (items1 items2 : list (string * json))
    (w : world) :
  text_of items1 = text_of items2 ->
  py_str (key_of items1) = py_str (key_of items2) ->
  process run mode (JObj items1) w = process run mode (JObj items2) w.
Proof.
  unfold process, text_of, key_of. intros Ht Hk. run_py.
  rewrite Ht, Hk. reflexivity.
Qed.

End Failures.



(** X4.  A body that parses but cannot be used - a JSON value that is no
    object, or an object whose text is no string - makes the handler raise
    after [/tmp/input.txt] has been opened for writing: [AttributeError] in
    the first case, [TypeError] in the second.  The input file is left
    empty, no reply is sent and the back end is not started. *)
Theorem unusable_body {lib : PyLib} (run : subprocess) (req : request)
    (data : json) (e : exn) (w : world) :
  is_transform req ->
  body_json req = Ok data ->
  unusable data = Some e ->
  scratch_ready (fs w) ->
  let w' := snd (handle_one_request run req w) in
  fst (handle_one_request run req w) = Raise e /\
  reply run req w = None /\
  fs w' = <[input_txt := Posix.File ""]> (fs w) /\
  paths_opened run req w = ["/tmp/input.txt"] /\
  commands_run run req w = [].
Proof.
  intros [Hc Hp] Hbody Hu Hready. cbv zeta.
  unfold reply, paths_opened, commands_run.
  rewrite (handle_transform run req w Hc Hp), Hbody.
  rewrite (process_unusable run _ data e (fresh_connection w) Hu Hready).
  cbn [fst snd fs wfile opened spawned].
  change (opened (fresh_connection w)) with (opened w).
  change (spawned (fresh_connection w)) with (spawned w).
  rewrite drop_app_length, drop_all. repeat split; reflexivity.
Qed.

Lemma unusable_body_witness :
  body_json (lib := Demo.lib) list_body = Ok (JArr [JInt 1; JInt 2]) /\
  fst (handle_one_request (lib := Demo.lib) Backend.java list_body world0) =
    Raise AttributeError /\
  body_json (lib := Demo.lib) number_text = Ok (JObj [("text", JInt 5)]) /\
  fst (handle_one_request (lib := Demo.lib) Backend.java number_text world0) =
    Raise TypeError.
Proof.
  assert (H1 : body_json (lib := Demo.lib) list_body =
               Ok (JArr [JInt 1; JInt 2])) by reflexivity.
  assert (H2 : body_json (lib := Demo.lib) number_text =
               Ok (JObj [("text", JInt 5)])) by reflexivity.
  assert (Hr : scratch_ready (fs world0)) by (split; reflexivity).
  split; [exact H1|]. split.
  - exact (proj1 (unusable_body (lib := Demo.lib) Backend.java list_body _
                    AttributeError world0
                    (conj eq_refl (or_introl eq_refl)) H1 eq_refl Hr)).
  - split; [exact H2|].
    exact (proj1 (unusable_body (lib := Demo.lib) Backend.java number_text _
                    TypeError world0
                    (conj eq_refl (or_introl eq_refl)) H2 eq_refl Hr)).
Defined.

(** X5.  When [/tmp] is no directory, or [/tmp/input.txt] is one, a
    transform request whose body parses raises [OSError] at the first
    [open]: no reply is sent, the file system is untouched and the back end
    is not started. *)
Theorem scratch_unusable {lib : PyLib} (run : subprocess) (req : request)
    (data : json) (w : world) :
  is_transform req ->
  body_json req = Ok data ->
  Posix.is_dir (fs w) ["tmp"] = false \/ Posix.is_dir (fs w) input_txt = true ->
  let w' := snd (handle_one_request run req w) in
  fst (handle_one_request run req w) = Raise OSError /\
  reply run req w = None /\
  fs w' = fs w /\
  commands_run run req w = [].
Proof.
  intros [Hc Hp] Hbody Hn. cbv zeta. unfold reply, commands_run.
  rewrite (handle_transform run req w Hc Hp), Hbody.
  rewrite (process_not_ready run _ data (fresh_connection w) Hn).
  cbn [fst snd]. unfold fresh_connection. run_py.
  rewrite drop_all. repeat split; reflexivity.
Qed.

Lemma scratch_unusable_witness :
  Posix.is_dir disk_no_tmp ["tmp"] = false /\
  fst (handle_one_request (lib := Demo.lib) Backend.java hello world_no_tmp) =
    Raise OSError /\
  fs (snd (handle_one_request (lib := Demo.lib) Backend.java hello
             world_no_tmp)) = disk_no_tmp.
Proof.
  split; [reflexivity|].
  destruct (scratch_unusable (lib := Demo.lib) Backend.java hello
              (JObj [("text", JStr "HELLO"); ("key", JInt 3)]) world_no_tmp
              (conj eq_refl (or_introl eq_refl)) eq_refl
              (or_introl eq_refl)) as (H1 & _ & H2 & _).
  split; [exact H1 | exact H2].
Defined.

(** X6.  When [subprocess.run] itself raises - the executable cannot be
    started - the exception leaves the handler: no reply is sent, the
    request's text stays in [/tmp/input.txt] and [/tmp/output.txt] is never
    opened. *)
Theorem spawn_failure {lib : PyLib} (run : subprocess) (req : request)
    (items : list (string * json)) (t : string) (e : exn) (w : world) :
  is_transform req ->
  body_json req = Ok (JObj items) ->
  text_of items = JStr t ->
  scratch_ready (fs w) ->
  run (argv (py_str (key_of items)) (mode_code (path req))) (cwd w)
      (<[input_txt := Posix.File t]> (fs w)) = Raise e ->
  let w' := snd (handle_one_request run req w) in
  fst (handle_one_request run req w) = Raise e /\
  reply run req w = None /\
  fs w' = <[input_txt := Posix.File t]> (fs w) /\
  paths_opened run req w = ["/tmp/input.txt"].
Proof.
  intros [Hc Hp] Hbody Htext Hready Hrun. cbv zeta.
  unfold reply, paths_opened.
  pose proof (handle_ready run req items t w Hc Hp Hbody Htext Hready) as H.
  cbv zeta in H. rewrite Hrun in H. rewrite H.
  cbn [fst snd fs wfile opened]. rewrite drop_app_length.
  repeat split; reflexivity.
Qed.

Lemma spawn_failure_witness :
  fst (handle_one_request (lib := Demo.lib) Backend2.missing hello world0) =
    Raise OSError /\
  reply (lib := Demo.lib) Backend2.missing hello world0 = None /\
  fs (snd (handle_one_request (lib := Demo.lib) Backend2.missing hello world0))
    !! input_txt = Some (Posix.File "HELLO").
Proof.
  destruct (spawn_failure (lib := Demo.lib) Backend2.missing hello
              [("text", JStr "HELLO"); ("key", JInt 3)] "HELLO" OSError world0
              (conj eq_refl (or_introl eq_refl)) eq_refl eq_refl
              (conj eq_refl eq_refl) eq_refl) as (H1 & H2 & H3 & _).
  split; [exact H1|]. split; [exact H2|].
  rewrite H3. apply lookup_insert_eq.
Defined.

(** ** What of a request the handler looks at *)

(** X7.  The handler sees the body of a transform request through its text
    and the [str] of its key alone: two requests to the same endpoint whose
    bodies are objects with the same text and keys that print alike - the
    number 3 and the string ["3"], say - are handled identically, whatever
    else the bodies hold and in whatever order. *)
Theorem body_seen_through_text_and_key {lib : PyLib} (run : subprocess)
    (req1 req2 : request) (items1 items2 : list (string * json)) (w : world) :
  is_transform req1 ->
  command req2 = POST -> path req2 = path req1 ->
  body_json req1 = Ok (JObj items1) ->
  body_json req2 = Ok (JObj items2) ->
  text_of items1 = text_of items2 ->
  py_str (key_of items1) = py_str (key_of items2) ->
  handle_one_request run req1 w = handle_one_request run req2 w.
Proof.
  intros [Hc Hp] Hc2 Hp2 Hb1 Hb2 Ht Hk.
  rewrite (handle_transform run req1 w Hc Hp), Hb1.
  rewrite (handle_transform run req2 w Hc2), Hb2 by (rewrite Hp2; exact Hp).
  rewrite Hp2. apply process_text_key; assumption.
Qed.

Lemma body_seen_through_text_and_key_witness :
  body_json (lib := Demo.lib) hello_reordered =
    Ok (JObj [("key", JStr "3"); ("extra", JBool true);
              ("text", JStr "HELLO")]) /\
  handle_one_request (lib := Demo.lib) Backend.java hello world0 =
  handle_one_request (lib := Demo.lib) Backend.java hello_reordered world0.
Proof.
  assert (H : body_json (lib := Demo.lib) hello_reordered =
              Ok (JObj [("key", JStr "3"); ("extra", JBool true);
                        ("text", JStr "HELLO")])) by reflexivity.
  split; [exact H|].
  exact (body_seen_through_text_and_key (lib := Demo.lib) Backend.java
           hello hello_reordered _ _ world0
           (conj eq_refl (or_introl eq_refl)) eq_refl eq_refl
           eq_refl H eq_refl eq_refl).
Defined.



(** ** What a reply to a transform request looks like *)

Lemma no_cr_universal_newlines (s : string) :
  PyStr.no_cr (PyStr.universal_newlines s) = true.
Proof.
  assert (H : forall (n : nat) (s : string), (String.length s <= n)%nat ->
                PyStr.no_cr (PyStr.universal_newlines s) = true).
  { clear s. induction n as [|n IH]; intros s Hlen.
    - destruct s; [reflexivity | cbn [String.length] in Hlen; lia].
    - destruct s as [|a rest]; [reflexivity|].
      cbn [String.length] in Hlen.
      cbn [PyStr.universal_newlines].
      destruct (Ascii.eqb a PyStr.CR) eqn:Ha.
      + destruct rest as [|b rest'].
        * reflexivity.
        * cbn [String.length] in Hlen.
          destruct (Ascii.eqb b PyStr.LF);
            cbn [PyStr.no_cr];
            change (Ascii.eqb PyStr.LF PyStr.CR) with false;
            cbn [negb andb]; apply IH; cbn [String.length]; lia.
      + cbn [PyStr.no_cr]. rewrite Ha. cbn [negb andb]. apply IH. lia. }
  apply (H (String.length s)). lia.
Qed.

Lemma printable_append (a b : string) :
  printable (a +:+ b) = printable a && printable b.
Proof.
  induction a as [|c a IH]; [reflexivity|].
  change (String c a +:+ b) with (String c (a +:+ b)).
  cbn [printable]. rewrite IH, andb_assoc. reflexivity.
Qed.

Lemma printable_escape_char (a : ascii) :
  printable (Json.escape_char a) = true.
Proof. destruct a as [[] [] [] [] [] [] [] []]; reflexivity. Qed.

Lemma printable_escape (s : string) : printable (Json.escape s) = true.
Proof.
  induction s as [|a rest IH]; [reflexivity|].
  cbn [Json.escape]. rewrite printable_append, printable_escape_char, IH.
  reflexivity.
Qed.

Lemma printable_encode (s : string) :
  printable (Json.encode_basestring_ascii s) = true.
Proof.
  unfold Json.encode_basestring_ascii.
  rewrite !printable_append, printable_escape. reflexivity.
Qed.

Lemma printable_join (fields : list string) :
  Forall (fun f => printable f = true) fields ->
  printable (PyStr.join ", " fields) = true.
Proof.
  induction 1 as [|f fields Hf _ IH]; [reflexivity|].
  destruct fields as [|g fields]; [exact Hf|].
  change (PyStr.join ", " (f :: g :: fields))
    with (f +:+ ", " +:+ PyStr.join ", " (g :: fields)).
  rewrite !printable_append, Hf, IH. reflexivity.
Qed.

Lemma printable_dumps (d : list (string * string)) :
  printable (Json.dumps d) = true.
Proof.
  unfold Json.dumps. rewrite !printable_append, printable_join; [reflexivity|].
  induction d as [|kv d IH]; constructor; [|exact IH].
  rewrite !printable_append, !printable_encode. reflexivity.
Qed.

Section Shape.

Context {lib : PyLib}.
Variable run : subprocess.

(** Whatever the parsed body and the machine, what goes out is nothing or
    the 200 block around the text read from the output file. *)
Lemma process_reply (mode : string) (data : json) (w : world) :
  headers_buffer w = [] -> wfile w = [] ->
  let o := fst (process run mode data w) in
  let w' := snd (process run mode data w) in
  (wfile w' = [] /\ exists e, o = Raise e) \/
  (exists out,
     o = Ok tt /\
     wfile w' = wire_200 "application/json"
                  (Json.dumps [("result", PyStr.universal_newlines out)])).
Proof.
  intros Hb Hw. unfold process. run_py. rewrite namei_input.
  repeat (run_py; try split_stuck run);
    rewrite ?Hb, ?Hw; cbn [app];
    try (left; split; [reflexivity | eexists; reflexivity]).
  right. eexists. split; reflexivity.
Qed.

Lemma is_transform_dec (req : request) :
  is_transform req \/ ~ is_transform req.
Proof.
  unfold is_transform.
  destruct (command req); try (right; intros [H _]; discriminate H).
  destruct (String.eqb_spec (path req) "/api/encrypt");
    destruct (String.eqb_spec (path req) "/api/decrypt"); auto.
  right. intros [_ [H|H]]; contradiction.
Qed.

Lemma handle_transform_reply (req : request) (w : world) :
  is_transform req ->
  (exists e, fst (handle_one_request run req w) = Raise e /\
             wfile (snd (handle_one_request run req w)) = []) \/
  (exists out,
     fst (handle_one_request run req w) = Ok tt /\
     wfile (snd (handle_one_request run req w)) =
       wire_200 "application/json"
         (Json.dumps [("result", PyStr.universal_newlines out)])).
Proof.
  intros [Hc Hp]. rewrite (handle_transform run req w Hc Hp).
  destruct (body_json req) as [data|e].
  - destruct (process_reply (mode_code (path req)) data (fresh_connection w)
                eq_refl eq_refl) as [[H [e He]]|[out [Ho H]]].
    + left. exists e. split; assumption.
    + right. exists out. split; assumption.
  - left. exists e. split; reflexivity.
Qed.

End Shape.



(** X10.  The result in the reply to a transform request never holds a
    carriage return: it is the text of the output file as a text-mode read
    hands it over. *)
Theorem result_has_no_carriage_return {lib : PyLib} (run : subprocess)
    (req : request) (w : world) (r : response) :
  is_transform req ->
  reply run req w = Some r ->
  exists result_text,
    r = result_reply result_text /\ PyStr.no_cr result_text = true.
Proof.
  intros Ht Hr. unfold reply in Hr.
  destruct (handle_transform_reply run req w Ht) as [[e [_ Hw]]|[out [_ Hw]]];
    rewrite Hw in Hr; [discriminate Hr|].
  exists (PyStr.universal_newlines out). split.
  - cbn in Hr. rewrite append_empty_r in Hr. injection Hr as <-. reflexivity.
  - apply no_cr_universal_newlines.
Qed.

Lemma result_has_no_carriage_return_witness :
  exists result_text,
    reply (lib := Demo.lib) Backend.java encrypt_a_cr_b world0 =
      Some (result_reply (lib := Demo.lib) result_text) /\
    PyStr.no_cr result_text = true.
Proof.
  destruct (result_has_no_carriage_return (lib := Demo.lib) Backend.java
              encrypt_a_cr_b world0
              (result_reply (lib := Demo.lib) (String "D" (String PyStr.LF "E")))
              (conj eq_refl (or_introl eq_refl)) eq_refl)
    as (t & Ht & Hcr).
  exists t. split; [|exact Hcr].
  rewrite <- Ht. reflexivity.
Defined.

(** X11.  The body of the reply to a transform request is printable ASCII
    whatever the output file holds: [json.dumps] escapes everything else. *)
Theorem transform_reply_is_ascii {lib : PyLib} (run : subprocess)
    (req : request) (w : world) (r : response) :
  is_transform req ->
  reply run req w = Some r ->
  printable (body r) = true.
Proof.
  intros Ht Hr. unfold reply in Hr.
  destruct (handle_transform_reply run req w Ht) as [[e [_ Hw]]|[out [_ Hw]]];
    rewrite Hw in Hr; [discriminate Hr|].
  cbn in Hr. injection Hr as <-. cbn [body].
  rewrite printable_append, printable_dumps. reflexivity.
Qed.

Lemma transform_reply_is_ascii_witness :
  printable (Json.dumps [("result", String "D" (String PyStr.LF "E"))]) = true.
Proof.
  exact (transform_reply_is_ascii (lib := Demo.lib) Backend.java
           encrypt_a_cr_b world0
           (result_reply (lib := Demo.lib) (String "D" (String PyStr.LF "E")))
           (conj eq_refl (or_introl eq_refl)) eq_refl).
Defined.

(** ** A back end that does its work *)



(** ** The path of a static file *)

Lemma startswith_append (a b : string) : PyStr.startswith (a +:+ b) a = true.
Proof.
  induction a as [|c a IH]; [destruct b; reflexivity|].
  change (String c a +:+ b) with (String c (a +:+ b)).
  cbn [PyStr.startswith]. rewrite Ascii.eqb_refl, IH. reflexivity.
Qed.

Lemma lstrip_no_slash (s : string) :
  PyStr.startswith (PyStr.lstrip "/" s) "/" = false.
Proof.
  induction s as [|a rest IH]; [reflexivity|].
  cbn [PyStr.lstrip]. destruct (Ascii.eqb a "/") eqn:Ha; [exact IH|].
  cbn [PyStr.startswith]. rewrite Ha. reflexivity.
Qed.

(** X13.  The path [do_GET] looks up always begins with the working
    directory, as text: leading slashes of the request path are all
    stripped, so [os.path.join] never takes the path for an absolute one, and
    any number of leading slashes gives the same file. *)
Theorem static_path_under_cwd (w : world) (target : string) :
  PyStr.startswith (static_path w target) (Posix.getcwd (cwd w)) = true /\
  static_path w ("/" +:+ target) = static_path w target.
Proof.
  split; [|reflexivity].
  unfold static_path, Posix.path_join. rewrite lstrip_no_slash.
  destruct (_ || _).
  - apply startswith_append.
  - apply startswith_append.
Qed.

(** ** The server loop *)

Section Loop.

Context {lib : PyLib}.
Variable run : subprocess.

Lemma serve_forever_cons (req : request) (rest : list request) (w : world) :
  serve_forever run (req :: rest) w =
  (wfile (snd (handle_one_request run req w))
     :: fst (serve_forever run rest (snd (handle_one_request run req w))),
   snd (serve_forever run rest (snd (handle_one_request run req w)))).
Proof.
  cbn [serve_forever].
  destruct (handle_one_request run req w) as [o w1]. cbn [snd].
  destruct (serve_forever run rest w1); reflexivity.
Qed.

Lemma serve_forever_app (a b : list request) (w : world) :
  serve_forever run (a ++ b) w =
  (fst (serve_forever run a w) ++
     fst (serve_forever run b (snd (serve_forever run a w))),
   snd (serve_forever run b (snd (serve_forever run a w)))).
Proof.
  revert w. induction a as [|req a IH]; intros w.
  - cbn [app serve_forever fst snd].
    destruct (serve_forever run b w); reflexivity.
  - change ((req :: a) ++ b) with (req :: (a ++ b)).
    rewrite !serve_forever_cons, IH. reflexivity.
Qed.

(** Handling a request looks at the world through a fresh connection. *)
Lemma handle_fresh (req : request) (w1 w2 : world) :
  fresh_connection w1 = fresh_connection w2 ->
  handle_one_request run req w1 = handle_one_request run req w2.
Proof. unfold handle_one_request. intros ->. reflexivity. Qed.

Lemma serve_forever_fresh (reqs : list request) (w1 w2 : world) :
  fresh_connection w1 = fresh_connection w2 ->
  fst (serve_forever run reqs w1) = fst (serve_forever run reqs w2) /\
  fresh_connection (snd (serve_forever run reqs w1)) =
  fresh_connection (snd (serve_forever run reqs w2)).
Proof.
  intros H. destruct reqs as [|req rest].
  - split; [reflexivity | exact H].
  - rewrite !serve_forever_cons, (handle_fresh req w1 w2 H).
    split; reflexivity.
Qed.

End Loop.

(** X14.  A transform request whose body cannot be read or parsed leaves
    no trace in a running server: its connection gets no byte, the server
    goes on to the next request, the other requests get the replies they
    would have got without it, and the file system, the files opened and the
    processes started are in the end the same as if it had not been made. *)
Theorem unparsable_request_leaves_no_trace {lib : PyLib} (run : subprocess)
    (a b : list request) (bad : request) (e : exn) (w : world) :
  is_transform bad ->
  body_json bad = Raise e ->
  let with_bad := serve_forever run (a ++ bad :: b) w in
  let without := serve_forever run (a ++ b) w in
  fst with_bad =
    fst (serve_forever run a w) ++
    [] :: fst (serve_forever run b (snd (serve_forever run a w))) /\
  fst without =
    fst (serve_forever run a w) ++
    fst (serve_forever run b (snd (serve_forever run a w))) /\
  fs (snd with_bad) = fs (snd without) /\
  opened (snd with_bad) = opened (snd without) /\
  spawned (snd with_bad) = spawned (snd without).
Proof.
  intros [Hc Hp] Hbody. cbv zeta. rewrite !serve_forever_app. cbn [fst snd].
  set (wa := snd (serve_forever run a w)).
  rewrite serve_forever_cons. cbn [fst snd].
  rewrite (handle_transform run bad wa Hc Hp), Hbody. cbn [snd].
  assert (Hf : fresh_connection (fresh_connection wa) = fresh_connection wa)
    by reflexivity.
  destruct (serve_forever_fresh run b (fresh_connection wa) wa Hf) as [H1 H2].
  rewrite H1.
  split; [reflexivity|]. split; [reflexivity|].
  change (fs (snd (serve_forever run b (fresh_connection wa))))
    with (fs (fresh_connection
                (snd (serve_forever run b (fresh_connection wa))))).
  change (opened (snd (serve_forever run b (fresh_connection wa))))
    with (opened (fresh_connection
                    (snd (serve_forever run b (fresh_connection wa))))).
  change (spawned (snd (serve_forever run b (fresh_connection wa))))
    with (spawned (fresh_connection
                     (snd (serve_forever run b (fresh_connection wa))))).
  rewrite H2. repeat split; reflexivity.
Qed.

(* A cut-off body between an encrypt and a decrypt request. *)
Lemma unparsable_request_leaves_no_trace_witness :
  body_json (lib := Demo.lib) cut_off = Raise JSONDecodeError /\
  fst (serve_forever (lib := Demo.lib) Backend.java [hello; cut_off; khoor]
         world0) =
    [wire_200 (lib := Demo.lib) "application/json"
       (Json.dumps [("result", "KHOOR")]);
     [];
     wire_200 (lib := Demo.lib) "application/json"
       (Json.dumps [("result", "HELLO")])].
Proof.
  assert (H : body_json (lib := Demo.lib) cut_off = Raise JSONDecodeError)
    by reflexivity.
  split; [exact H|].
  pose proof (proj1 (unparsable_request_leaves_no_trace (lib := Demo.lib)
                       Backend.java [hello] [khoor] cut_off JSONDecodeError
                       world0 (conj eq_refl (or_introl eq_refl)) H)) as E.
  change ([hello] ++ [cut_off; khoor]) with [hello; cut_off; khoor] in E.
  rewrite E. reflexivity.
Defined.

(** X15.  A status probe can be put anywhere among the requests a server
    handles without changing anything else: the other requests get the same
    replies, and the file system, the files opened and the processes started
    are in the end the same as without the probe. *)
Theorem status_probe_transparent {lib : PyLib} (run : subprocess)
    (a b : list request) (hs : list (string * string)) (bytes : string)
    (w : world) :
  let probe := Request GET "/api/status" hs bytes in
  let with_probe := serve_forever run (a ++ probe :: b) w in
  let without := serve_forever run (a ++ b) w in
  fst with_probe =
    fst (serve_forever run a w) ++
    wire_200 "application/json" status_json ::
    fst (serve_forever run b (snd (serve_forever run a w))) /\
  fst without =
    fst (serve_forever run a w) ++
    fst (serve_forever run b (snd (serve_forever run a w))) /\
  fs (snd with_probe) = fs (snd without) /\
  opened (snd with_probe) = opened (snd without) /\
  spawned (snd with_probe) = spawned (snd without).
Proof.
  cbv zeta. rewrite !serve_forever_app. cbn [fst snd].
  set (wa := snd (serve_forever run a w)).
  rewrite serve_forever_cons. cbn [fst snd].
  unfold handle_one_request at 1 2 3 4 5, dispatch. cbn [command].
  rewrite do_GET_status by reflexivity. cbn [snd].
  set (ws := set_headers_buffer [] _).
  assert (Hf : fresh_connection ws = fresh_connection wa) by reflexivity.
  destruct (serve_forever_fresh run b ws wa Hf) as [H1 H2].
  rewrite H1.
  split; [reflexivity|]. split; [reflexivity|].
  change (fs (snd (serve_forever run b ws)))
    with (fs (fresh_connection (snd (serve_forever run b ws)))).
  change (opened (snd (serve_forever run b ws)))
    with (opened (fresh_connection (snd (serve_forever run b ws)))).
  change (spawned (snd (serve_forever run b ws)))
    with (spawned (fresh_connection (snd (serve_forever run b ws)))).
  rewrite H2. repeat split; reflexivity.
Qed.
